(** * BuzzBot news-recommendation server: interest store, fetch and ranking

    A shallow embedding of [mcp-bearer-token/mcp-start.py].

    Conventions of the model.
    - A Python [str] is a [string]; each [ascii] is one code point in
      [0 .. 255] (the Latin-1 block).  [str.lower], [str.strip] and the
      [in] operator are written out on that range below.
    - [USER_INTERESTS] is a [gmap string (list string)], the
      [dict[str, list[str]]] its annotation promises.  The lists read from
      it are never mutated in place, so sharing them is not observable.
    - The tool functions run in a state-and-exception monad over the
      process state (in-memory map and the JSON file); as in Python, a raised
      exception does not undo the state changes made before it.
    - The outside world (the result of writing the JSON file, the answer of
      the news service to a request) is an explicit argument of the
      functions that use it.  The API key, a constant of the process, is part
      of that service and not of the request record.
    - The relevance score is a float that starts at [0.0] and only ever grows
      by [1.0]; such a value is an exact natural number, and is kept as [nat].
    - The arguments of a tool have the types its signature declares. *)

From Stdlib Require Import NArith ZArith Ascii String Bool List Lia.
From Stdlib Require Import Permutation Sorted.
From stdpp Require Import base gmap strings list fin_maps sorting.

Set Warnings "-register-all".
Local Open Scope N_scope.

(** ** Python strings *)

Module PyStr.

Definition ord (c : ascii) : N := N_of_ascii c.

(** [str.isspace] on one code point below 256: TAB..CR, FS..US, space,
    NEL (0x85) and NBSP (0xA0). *)
Definition isspace (c : ascii) : bool :=
  let n := ord c in
  ((9 <=? n) && (n <=? 13)) || ((28 <=? n) && (n <=? 32))
  || (n =? 133) || (n =? 160).

(** Code points below 256 that [str.lower] changes: A..Z and the
    Latin-1 capitals 0xC0..0xDE without the multiplication sign 0xD7. *)
Definition isupper (c : ascii) : bool :=
  let n := ord c in
  ((65 <=? n) && (n <=? 90))
  || ((192 <=? n) && (n <=? 222) && negb (n =? 215)).

Definition lower_char (c : ascii) : ascii :=
  if isupper c then ascii_of_N (ord c + 32) else c.

(** [s.lower()] *)
Fixpoint lower (s : string) : string :=
  match s with
  | EmptyString => EmptyString
  | String c s' => String (lower_char c) (lower s')
  end.

(** [s.lstrip()], [s.rstrip()] and [s.strip()] with no argument. *)
Fixpoint lstrip (s : string) : string :=
  match s with
  | EmptyString => EmptyString
  | String c s' => if isspace c then lstrip s' else s
  end.

Fixpoint rstrip (s : string) : string :=
  match s with
  | EmptyString => EmptyString
  | String c s' =>
      match rstrip s' with
      | EmptyString => if isspace c then EmptyString else String c EmptyString
      | r => String c r
      end
  end.

Definition strip (s : string) : string := rstrip (lstrip s).

(** Truth value of a string: [bool(s)], false only for the empty string. *)
Definition truthy (s : string) : bool :=
  match s with EmptyString => false | String _ _ => true end.

(** [needle in hay] *)
Fixpoint contains (needle hay : string) : bool :=
  String.prefix needle hay
  || match hay with
     | EmptyString => false
     | String _ hay' => contains needle hay'
     end.

(** [sep.join(l)] *)
Fixpoint join (sep : string) (l : list string) : string :=
  match l with
  | [] => EmptyString
  | [s] => s
  | s :: l' => s +:+ sep +:+ join sep l'
  end.

(** Every character of the string is white space. *)
Fixpoint all_space (s : string) : bool :=
  match s with
  | EmptyString => true
  | String c s' => isspace c && all_space s'
  end.

(** First and last character, when there is one. *)
Definition head (s : string) : option ascii :=
  match s with EmptyString => None | String c _ => Some c end.

Fixpoint last (s : string) : option ascii :=
  match s with
  | EmptyString => None
  | String c EmptyString => Some c
  | String _ s' => last s'
  end.

(** A trimmed string neither starts nor ends with white space. *)
Definition trimmed (s : string) : Prop :=
  (forall c, head s = Some c -> isspace c = false)
  /\ (forall c, last s = Some c -> isspace c = false).

(** A lowercased string holds no character that [lower] would change. *)
Fixpoint no_upper (s : string) : bool :=
  match s with
  | EmptyString => true
  | String c s' => negb (isupper c) && no_upper s'
  end.

(** [needle] occurs somewhere inside [hay]. *)
Definition substring_of (needle hay : string) : Prop :=
  exists pre post, hay = pre +:+ needle +:+ post.

End PyStr.

(** ** JSON values, as [response.json()] produces them

    Numbers are kept as integers: the program never looks inside one. *)

Inductive json : Type :=
| JNull
| JBool (b : bool)
| JNum (n : Z)
| JStr (s : string)
| JArr (items : list json)
| JObj (fields : list (string * json)).

(** ** Exceptions *)

(** [mcp.types.INVALID_PARAMS] and [INTERNAL_ERROR]. *)
Inductive error_code : Type := INVALID_PARAMS | INTERNAL_ERROR.

(** The exceptions the program can see, each with the text [str(e)] gives.
    [McpError] and [requests.RequestException] are subclasses of [Exception];
    [PyError] stands for every other subclass ([AttributeError],
    [TypeError], [IndexError], ...). *)
Inductive exn : Type :=
| McpError (code : error_code) (message : string)
| RequestException (message : string)
| PyError (message : string).

Definition str_exn (e : exn) : string :=
  match e with
  | McpError _ m => m
  | RequestException m => m
  | PyError m => m
  end.

Inductive result (A : Type) : Type :=
| Ok (a : A)
| Raise (e : exn).
Arguments Ok {A} a.
Arguments Raise {A} e.

#[global] Instance result_ret : MRet result := fun A a => Ok a.
#[global] Instance result_bind : MBind result := fun A B f m =>
  match m with
  | Ok a => f a
  | Raise e => Raise e
  end.

(** ** Process state *)

(** What [user_interests.json] holds: nothing, a JSON object of the store's
    shape, or bytes that [json.load] rejects (a write that broke off). *)
Inductive disk_file : Type :=
| NoFile
| JsonFile (content : gmap string (list string))
| BadFile.

Record world : Type := mkWorld {
  USER_INTERESTS : gmap string (list string);
  USER_INTERESTS_FILE : disk_file
}.

(** How an attempt to rewrite the file ends: done, [open] raised [IOError]
    (file untouched), or [json.dump] raised [IOError] after [open] had
    truncated the file. *)
Inductive write_outcome : Type := Written | OpenFailed | DumpFailed.

(** State and exceptions: the state that an exception leaves behind is kept. *)
Definition M (A : Type) : Type := world -> result A * world.

#[global] Instance M_ret : MRet M := fun A a w => (Ok a, w).
#[global] Instance M_bind : MBind M := fun A B f m w =>
  match m w with
  | (Ok a, w') => f a w'
  | (Raise e, w') => (Raise e, w')
  end.

Definition raise {A : Type} (e : exn) : M A := fun w => (Raise e, w).

(** [try: body  except ... : handler e] *)
Definition try_except {A : Type} (body : M A) (handler : exn -> M A) : M A :=
  fun w =>
    match body w with
    | (Ok a, w') => (Ok a, w')
    | (Raise e, w') => handler e w'
    end.

Definition lift {A : Type} (r : result A) : M A := fun w => (r, w).

Definition get_USER_INTERESTS : M (gmap string (list string)) :=
  fun w => (Ok (USER_INTERESTS w), w).

(** [load_user_interests]: the store the process starts from. *)
Definition load_user_interests (f : disk_file) : gmap string (list string) :=
  match f with
  | JsonFile content => content
  | NoFile | BadFile => ∅
  end.

(** [save_user_interests(interests)]: an [IOError] is printed, not raised. *)
Definition save_user_interests (io : write_outcome)
    (interests : gmap string (list string)) : M unit :=
  fun w =>
    (Ok tt,
     match io with
     | Written => mkWorld (USER_INTERESTS w) (JsonFile interests)
     | OpenFailed => w
     | DumpFailed => mkWorld (USER_INTERESTS w) BadFile
     end).

(** [_error(code, msg)] *)
Definition _error {A : Type} (code : error_code) (msg : string) : M A :=
  raise (McpError code msg).

(** [USER_INTERESTS.setdefault(key, [])] *)
Definition setdefault_empty (key : string) : M (list string) :=
  fun w =>
    match USER_INTERESTS w !! key with
    | Some l => (Ok l, w)
    | None => (Ok [], mkWorld (<[key := []]> (USER_INTERESTS w)) (USER_INTERESTS_FILE w))
    end.

(** [USER_INTERESTS[key] = value] *)
Definition setitem (key : string) (value : list string) : M unit :=
  fun w => (Ok tt, mkWorld (<[key := value]> (USER_INTERESTS w)) (USER_INTERESTS_FILE w)).

Definition _user_interests (puch_user_id : string) : M (list string) :=
  if negb (PyStr.truthy puch_user_id)
  then raise (McpError INVALID_PARAMS "puch_user_id is required")
  else setdefault_empty puch_user_id.

(** Truth value of a list: false only for the empty list. *)
Definition nonempty {A : Type} (l : list A) : bool :=
  match l with [] => false | _ :: _ => true end.

(** ** Relevance and ranking *)

(** A parsed JSON object is a Python [dict]; a key is bound at most once,
    and the list is searched from its head. *)
Fixpoint dict_lookup (key : string) (d : list (string * json)) : option json :=
  match d with
  | [] => None
  | (k, v) :: d' => if String.eqb k key then Some v else dict_lookup key d'
  end.

(** [v.get(key, dflt)]: only a [dict] has [get]. *)
Definition py_get (v : json) (key : string) (dflt : json) : result json :=
  match v with
  | JObj d => Ok (default dflt (dict_lookup key d))
  | _ => Raise (PyError "AttributeError: object has no attribute 'get'")
  end.

(** [v.lower()]: only a [str] has [lower]. *)
Definition py_lower (v : json) : result string :=
  match v with
  | JStr s => Ok (PyStr.lower s)
  | _ => Raise (PyError "AttributeError: object has no attribute 'lower'")
  end.

(** The loop of [calculate_relevance]: one point for each interest found. *)
Definition count_matches (content : string) (interests : list string) : nat :=
  fold_left
    (fun score interest =>
       if PyStr.contains (PyStr.lower interest) content then S score else score)
    interests O.

Definition calculate_relevance (article : json) (interests : list string)
    : result nat :=
  t ← py_get article "title" (JStr "");
  title ← py_lower t;
  d ← py_get article "description" (JStr "");
  description ← py_lower d;
  let content := title +:+ " " +:+ description in
  mret (count_matches content interests).

(** One entry of [formatted_articles]. *)
Record formatted_article : Type := mkFormatted {
  title : json;
  description : json;
  url : json;
  published_at : json;
  source : json;
  relevance_score : nat
}.

Definition format_article (article : json) (interests : list string)
    : result formatted_article :=
  a_title ← py_get article "title" (JStr "");
  a_description ← py_get article "description" (JStr "");
  a_url ← py_get article "url" (JStr "");
  a_published ← py_get article "publishedAt" (JStr "");
  a_source ← py_get article "source" (JObj []);
  a_name ← py_get a_source "name" (JStr "");
  score ← calculate_relevance article interests;
  mret (mkFormatted a_title a_description a_url a_published a_name score).

(** [for article in ...: formatted_articles.append(...)]; the first
    exception ends the loop. *)
Fixpoint format_articles (articles : list json) (interests : list string)
    : result (list formatted_article) :=
  match articles with
  | [] => mret []
  | article :: rest =>
      f ← format_article article interests;
      fs ← format_articles rest interests;
      mret (f :: fs)
  end.

(** [v[:5]]: a list gives its first five items, a string its first five
    characters (each a one-character string when iterated); nothing else
    can be sliced. *)
Definition py_slice5 (v : json) : result (list json) :=
  match v with
  | JArr items => Ok (firstn 5 items)
  | JStr s =>
      Ok (map (fun c => JStr (String c EmptyString))
              (firstn 5 (list_ascii_of_string s)))
  | _ => Raise (PyError "TypeError: object is not subscriptable")
  end.

(** [l.sort(key=lambda x: x["relevance_score"], reverse=True)].  Python's
    sort is stable, and with [reverse=True] entries of equal key still keep
    their original order: each entry goes in front of the first entry of the
    sorted rest whose score is not higher. *)
Fixpoint insert_by_score (x : formatted_article) (l : list formatted_article)
    : list formatted_article :=
  match l with
  | [] => [x]
  | y :: l' =>
      if (relevance_score y <=? relevance_score x)%nat
      then x :: y :: l'
      else y :: insert_by_score x l'
  end.

Fixpoint sort_by_score (l : list formatted_article) : list formatted_article :=
  match l with
  | [] => []
  | x :: l' => insert_by_score x (sort_by_score l')
  end.

(** The ranking step at the end of [fetch_news_by_interests]: sort, then
    [formatted_articles[:5]]. *)
Definition rank (formatted_articles : list formatted_article)
    : list formatted_article :=
  firstn 5 (sort_by_score formatted_articles).

(** ** The news service *)

Record request : Type := mkRequest {
  req_url : string;
  q : string;
  sortBy : string;
  pageSize : N;
  language : string;
  timeout : N
}.

(** How [requests.get] ends: it raises [Timeout], it raises another
    [RequestException] (connection refused, DNS, TLS, ...), or it returns a
    response with a status code and a body that is JSON or is not. *)
Inductive http_outcome : Type :=
| TimedOut
| TransportFailed
| Responded (status_code : N) (body : option json).

(** [response.raise_for_status()]: [HTTPError] for 4xx and 5xx. *)
Definition is_http_error (status_code : N) : bool :=
  (400 <=? status_code) && (status_code <? 600).

Definition raise_for_status (status_code : N) : result unit :=
  if is_http_error status_code
  then Raise (RequestException "HTTPError")
  else Ok tt.

(** [response.json()] *)
Definition response_json (body : option json) : result json :=
  match body with
  | Some data => Ok data
  | None => Raise (RequestException "JSONDecodeError")
  end.

(** [interests[0]] *)
Definition first_item (interests : list string) : result string :=
  match interests with
  | x :: _ => Ok x
  | [] => Raise (PyError "IndexError: list index out of range")
  end.

Definition build_request (interests : list string) : request :=
  mkRequest "https://newsapi.org/v2/everything"
            (PyStr.join " OR " (firstn 3 interests))
            "publishedAt" 5 "en" 10.

Definition requests_get (net : request -> http_outcome) (r : request)
    : result (N * option json) :=
  match net r with
  | TimedOut => Raise (RequestException "Timeout")
  | TransportFailed => Raise (RequestException "ConnectionError")
  | Responded status_code body => Ok (status_code, body)
  end.

(** The [try] block of [fetch_news_by_interests]. *)
Definition fetch_body (net : request -> http_outcome) (interests : list string)
    : result (list formatted_article) :=
  main_interest ← first_item interests;
  resp ← requests_get net (build_request interests);
  raise_for_status resp.1;;
  data ← response_json resp.2;
  articles ← py_get data "articles" (JArr []);
  first5 ← py_slice5 articles;
  formatted_articles ← format_articles first5 interests;
  mret (rank formatted_articles).

(** [fetch_news_by_interests]: both handlers print and return [[]]. *)
Definition fetch_news_by_interests (net : request -> http_outcome)
    (interests : list string) : M (list formatted_article) :=
  try_except
    (lift (fetch_body net interests))
    (fun e =>
       match e with
       | RequestException _ => mret []
       | _ => mret []
       end).

(** ** The tools *)

(** The dictionary each tool serialises into its reply, one constructor per
    shape.  The free-text ["message"] and ["suggestions"] entries are left
    out: they are fixed texts around the fields kept here. *)
Inductive response : Type :=
| HelloReady (user_id : string) (current_interests : list string)
| HelloNeedInterests (user_id : string)
| HelloHelp (user_id : string) (current_interests : list string)
| InterestsSaved (user_id : string) (interests : list string)
| ShowInterests (user_id : string) (interests : list string) (count : nat)
| NoNewsFound (user_id : string) (interests : list string)
| NewsDisplayed (user_id : string) (interests : list string)
    (news_count : nat) (articles : list formatted_article).

(** The ["next_action"] entry of each reply. *)
Definition next_action (r : response) : string :=
  match r with
  | HelloReady _ _ => "ready_for_news"
  | HelloNeedInterests _ => "need_interests"
  | HelloHelp _ _ => "general_help"
  | InterestsSaved _ _ => "ready_for_news"
  | ShowInterests _ _ _ => "show_interests"
  | NoNewsFound _ _ => "no_news_found"
  | NewsDisplayed _ _ _ _ => "news_displayed"
  end.

Definition hello_buzzbot (puch_user_id user_message : string) : M response :=
  try_except
    (let user_message_lower := PyStr.strip (PyStr.lower user_message) in
     existing_interests ← _user_interests puch_user_id;
     if PyStr.contains "hello" user_message_lower
        || PyStr.contains "hi" user_message_lower
     then
       if nonempty existing_interests
       then mret (HelloReady puch_user_id existing_interests)
       else mret (HelloNeedInterests puch_user_id)
     else mret (HelloHelp puch_user_id existing_interests))
    (fun e => _error INTERNAL_ERROR (str_exn e)).

(** [[interest.strip().lower() for interest in interests if interest.strip()]] *)
Fixpoint clean (interests : list string) : list string :=
  match interests with
  | [] => []
  | interest :: rest =>
      if PyStr.truthy (PyStr.strip interest)
      then PyStr.lower (PyStr.strip interest) :: clean rest
      else clean rest
  end.

Definition set_interests (io : write_outcome) (puch_user_id : string)
    (interests : list string) : M response :=
  try_except
    ((if negb (nonempty interests)
      then _error INVALID_PARAMS "interests must be a non-empty list"
      else mret tt);;
     let clean_interests := clean interests in
     (if negb (nonempty clean_interests)
      then _error INVALID_PARAMS "interests cannot be empty after cleaning"
      else mret tt);;
     setitem puch_user_id clean_interests;;
     store ← get_USER_INTERESTS;
     save_user_interests io store;;
     mret (InterestsSaved puch_user_id clean_interests))
    (fun e =>
       match e with
       | McpError _ _ => raise e
       | _ => _error INTERNAL_ERROR (str_exn e)
       end).

Definition get_interests (puch_user_id : string) : M response :=
  try_except
    (interests ← _user_interests puch_user_id;
     mret (ShowInterests puch_user_id interests (length interests)))
    (fun e => _error INTERNAL_ERROR (str_exn e)).

Definition get_latest_news (net : request -> http_outcome)
    (puch_user_id : string) : M response :=
  try_except
    (interests ← _user_interests puch_user_id;
     (if negb (nonempty interests)
      then _error INVALID_PARAMS
             "No interests set. Please set interests first using set_interests or say 'hello' to get started."
      else mret tt);;
     news_articles ← fetch_news_by_interests net interests;
     if negb (nonempty news_articles)
     then mret (NoNewsFound puch_user_id interests)
     else mret (NewsDisplayed puch_user_id interests
                              (length news_articles) news_articles))
    (fun e =>
       match e with
       | McpError _ _ => raise e
       | _ => _error INTERNAL_ERROR (str_exn e)
       end).

(** One request to the server, with what the outside world answers. *)
Inductive call : Type :=
| CallHello (puch_user_id user_message : string)
| CallSetInterests (io : write_outcome) (puch_user_id : string)
    (interests : list string)
| CallGetInterests (puch_user_id : string)
| CallGetLatestNews (net : request -> http_outcome) (puch_user_id : string).

Definition run (c : call) : M response :=
  match c with
  | CallHello u m => hello_buzzbot u m
  | CallSetInterests io u l => set_interests io u l
  | CallGetInterests u => get_interests u
  | CallGetLatestNews net u => get_latest_news net u
  end.

(** A session: requests served one after the other, the state of each
    being what the one before left, whether it raised or not. *)
Fixpoint run_all (cs : list call) (w : world) : world :=
  match cs with
  | [] => w
  | c :: cs' => run_all cs' (run c w).2
  end.

(** ** Properties the claims speak of *)

(** A reply is [InvalidArgument] when the tool raised [McpError] with
    [INVALID_PARAMS]. *)
Definition is_invalid_argument {A : Type} (r : result A) : bool :=
  match r with
  | Raise (McpError INVALID_PARAMS _) => true
  | _ => false
  end.

Definition is_ok {A : Type} (r : result A) : bool :=
  match r with Ok _ => true | Raise _ => false end.

(** The list read for an identifier: absent reads as empty. *)
Definition interests_of (store : gmap string (list string)) (id : string)
    : list string :=
  default [] (store !! id).

(** Normalisation in the words of the specification: trim and lowercase
    every entry, then drop the entries that came out empty. *)
Definition normalize (topics : list string) : list string :=
  filter (fun s => s ≠ EmptyString)
         (map (fun s => PyStr.lower (PyStr.strip s)) topics).

(** A stored topic is well formed: trimmed, lowercased, not empty. *)
Definition topic_ok (t : string) : Prop :=
  t ≠ EmptyString /\ PyStr.trimmed t /\ PyStr.no_upper t = true
  /\ PyStr.all_space t = false.

Definition store_ok (store : gmap string (list string)) : Prop :=
  forall id l, store !! id = Some l -> Forall topic_ok l.

(** Articles in descending order of score. *)
Definition score_ge (a b : formatted_article) : Prop :=
  (relevance_score b <= relevance_score a)%nat.


(** The state after [_user_interests], whatever the identifier. *)
Definition touched (id : string) (w : world) : world :=
  match id, USER_INTERESTS w !! id with
  | String _ _, None =>
      mkWorld (<[id := []]> (USER_INTERESTS w)) (USER_INTERESTS_FILE w)
  | _, _ => w
  end.

(** Counting in the words of the specification: [count_of P l n] says that
    exactly [n] entries of [l] satisfy [P]; an entry that occurs twice in [l]
    is counted twice. *)
Inductive count_of (P : string -> Prop) : list string -> nat -> Prop :=
| count_nil : count_of P [] O
| count_hit t l n : P t -> count_of P l n -> count_of P (t :: l) (S n)
| count_miss t l n : ~ P t -> count_of P l n -> count_of P (t :: l) n.

(** A topic occurs in a text, ignoring case. *)
Definition occurs_ignoring_case (text topic : string) : Prop :=
  PyStr.substring_of (PyStr.lower topic) (PyStr.lower text).

(** An article of the news service whose title and description are strings. *)
Definition article_of (a_title a_description : string) : json :=
  JObj [("title", JStr a_title); ("description", JStr a_description)].

(** ** Restart, and what a request is about *)

(** A new process: [USER_INTERESTS = load_user_interests()] on the file the
    old one left. *)
Definition restart (w : world) : world :=
  mkWorld (load_user_interests (USER_INTERESTS_FILE w)) (USER_INTERESTS_FILE w).

(** The request is a [set_interests] for the identifier [k]. *)
Definition is_set_for (k : string) (c : call) : bool :=
  match c with
  | CallSetInterests _ id _ => bool_decide (id = k)
  | _ => false
  end.

(** The request is one of the reading tools. *)
Definition is_read (c : call) : bool :=
  match c with
  | CallSetInterests _ _ _ => false
  | _ => true
  end.

(** An article of the service that [format_article] can read: an object
    whose title and description are strings or absent and whose source is an
    object or absent. *)
Definition well_formed_article (a : json) : Prop :=
  (exists t, py_get a "title" (JStr "") = Ok (JStr t))
  /\ (exists d, py_get a "description" (JStr "") = Ok (JStr d))
  /\ (exists src, py_get a "source" (JObj []) = Ok (JObj src)).

(** An article with a title or a description that is there but is not a
    string (the service sends [null] for a missing description). *)
Definition bad_text_article (a : json) : Prop :=
  exists v,
    (py_get a "title" (JStr "") = Ok v \/ py_get a "description" (JStr "") = Ok v)
    /\ forall s, v <> JStr s.

(** The message greets: [hello] or [hi] occurs in it, ignoring case. *)
Definition greets (user_message : string) : Prop :=
  occurs_ignoring_case user_message "hello"
  \/ occurs_ignoring_case user_message "hi".

(** [f] is the entry that [format_article] builds from the raw article [a]:
    the fields copied (a missing one as the empty string, the source by its
    name) and the score that [calculate_relevance] gives. *)
Definition formats_as (interests : list string) (a : json)
    (f : formatted_article) : Prop :=
  py_get a "title" (JStr "") = Ok (title f)
  /\ py_get a "description" (JStr "") = Ok (description f)
  /\ py_get a "url" (JStr "") = Ok (url f)
  /\ py_get a "publishedAt" (JStr "") = Ok (published_at f)
  /\ (exists src, py_get a "source" (JObj []) = Ok src
                  /\ py_get src "name" (JStr "") = Ok (source f))
  /\ calculate_relevance a interests = Ok (relevance_score f).

(** The request got an answer with a status that [raise_for_status] lets
    through. *)
Definition answered (net : request -> http_outcome) (interests : list string)
    (body : option json) : Prop :=
  exists status_code,
    net (build_request interests) = Responded status_code body
    /\ is_http_error status_code = false.

(** A success status in the sense of HTTP: 2xx. *)
Definition is_success_status (status_code : N) : bool :=
  (200 <=? status_code) && (status_code <? 300).

(** * Theorems *)

(** ** Strings *)

Section PyStrFacts.
Import PyStr.
Local Arguments String.append !s1 s2 : simpl nomatch.

Example lower_example : lower "AI Breakthroughs" = "ai breakthroughs".
Proof. reflexivity. Qed.

Example strip_example : strip "  Tech News  " = "Tech News".
Proof. reflexivity. Qed.

Example contains_example :
  contains "robotics" "ai breakthroughs in robotics " = true.
Proof. reflexivity. Qed.

Example join_example :
  join " OR " ["ai"; "sports"; "politics"] = "ai OR sports OR politics".
Proof. reflexivity. Qed.

Ltac all_chars c := destruct c as [[] [] [] [] [] [] [] []]; vm_compute; reflexivity.

Lemma isspace_lower_char c : isspace (lower_char c) = isspace c.
Proof. all_chars c. Qed.

Lemma isupper_lower_char c : isupper (lower_char c) = false.
Proof. all_chars c. Qed.

Lemma isspace_not_upper c : isspace c = true -> lower_char c = c.
Proof. destruct c as [[] [] [] [] [] [] [] []]; vm_compute; congruence. Qed.

Lemma lower_app a b : lower (a +:+ b) = lower a +:+ lower b.
Proof. induction a as [|c a IH]; simpl; [reflexivity | now rewrite IH]. Qed.

Lemma lower_empty_iff s : lower s = EmptyString <-> s = EmptyString.
Proof. destruct s; simpl; split; congruence. Qed.

Lemma lower_idem s : lower (lower s) = lower s.
Proof.
  induction s as [|c s IH]; simpl; [reflexivity|].
  rewrite IH. f_equal.
  unfold lower_char at 1. now rewrite isupper_lower_char.
Qed.

Lemma no_upper_lower s : no_upper (lower s) = true.
Proof.
  induction s as [|c s IH]; simpl; [reflexivity|].
  now rewrite isupper_lower_char, IH.
Qed.

Lemma no_upper_fixed s : no_upper s = true -> lower s = s.
Proof.
  induction s as [|c s IH]; simpl; [reflexivity|].
  intros [Hc Hs]%andb_true_iff. rewrite IH by assumption.
  unfold lower_char. apply negb_true_iff in Hc. now rewrite Hc.
Qed.

Lemma lstrip_lower s : lstrip (lower s) = lower (lstrip s).
Proof.
  induction s as [|c s IH]; simpl; [reflexivity|].
  rewrite isspace_lower_char. now destruct (isspace c).
Qed.

Lemma rstrip_lower s : rstrip (lower s) = lower (rstrip s).
Proof.
  induction s as [|c s IH]; simpl; [reflexivity|].
  rewrite IH, isspace_lower_char.
  destruct (rstrip s); simpl; [now destruct (isspace c) | reflexivity].
Qed.

Lemma strip_lower s : strip (lower s) = lower (strip s).
Proof. unfold strip. now rewrite lstrip_lower, rstrip_lower. Qed.

(** What [lstrip] and [rstrip] take away is white space, and nothing else
    is touched. *)
Lemma lstrip_split s :
  exists pre, s = pre +:+ lstrip s /\ all_space pre = true.
Proof.
  induction s as [|c s [pre [E Hpre]]]; simpl.
  - now exists EmptyString.
  - destruct (isspace c) eqn:Hc.
    + exists (String c pre). simpl. rewrite Hc, Hpre. split; [congruence | reflexivity].
    + now exists EmptyString.
Qed.

Lemma rstrip_split s :
  exists post, s = rstrip s +:+ post /\ all_space post = true.
Proof.
  induction s as [|c s [post [E Hpost]]]; simpl.
  - now exists EmptyString.
  - destruct (rstrip s) eqn:Hr.
    + destruct (isspace c) eqn:Hc.
      * exists (String c post). simpl in *. rewrite Hc, Hpost. split; [congruence | reflexivity].
      * exists post. simpl in *. split; congruence.
    + exists post. simpl in *. split; congruence.
Qed.

Lemma strip_split s :
  exists pre post,
    s = pre +:+ strip s +:+ post
    /\ all_space pre = true /\ all_space post = true.
Proof.
  destruct (lstrip_split s) as [pre [E1 H1]].
  destruct (rstrip_split (lstrip s)) as [post [E2 H2]].
  exists pre, post. unfold strip. rewrite <- E2. now repeat split.
Qed.

Lemma head_lstrip s c : head (lstrip s) = Some c -> isspace c = false.
Proof.
  induction s as [|a s IH]; simpl; [discriminate|].
  destruct (isspace a) eqn:Ha; [exact IH|].
  simpl. congruence.
Qed.

Lemma head_rstrip s c : head (rstrip s) = Some c -> head s = Some c.
Proof.
  destruct s as [|a s]; simpl; [discriminate|].
  destruct (rstrip s); [destruct (isspace a)|]; simpl; congruence.
Qed.

Lemma last_rstrip s c : last (rstrip s) = Some c -> isspace c = false.
Proof.
  induction s as [|a s IH]; simpl; [discriminate|].
  destruct (rstrip s) as [|b r] eqn:Hr.
  - destruct (isspace a) eqn:Ha; simpl; congruence.
  - change (last (String a (String b r))) with (last (String b r)).
    exact IH.
Qed.

Lemma strip_trimmed s : trimmed (strip s).
Proof.
  split; intros c H.
  - apply head_rstrip in H. now apply head_lstrip in H.
  - now apply last_rstrip in H.
Qed.

Lemma head_lower s : head (lower s) = lower_char <$> head s.
Proof. now destruct s. Qed.

Lemma last_lower s : last (lower s) = lower_char <$> last s.
Proof.
  induction s as [|a s IH]; [reflexivity|].
  destruct s as [|b s]; [reflexivity|].
  change (last (lower (String b s)) = lower_char <$> last (String b s)).
  exact IH.
Qed.

Lemma trimmed_lower s : trimmed s -> trimmed (lower s).
Proof.
  intros [Hh Hl]. split; intros c.
  - rewrite head_lower. destruct (head s) as [a|]; simpl; [|discriminate].
    intros [= <-]. rewrite isspace_lower_char. now apply Hh.
  - rewrite last_lower. destruct (last s) as [a|]; simpl; [|discriminate].
    intros [= <-]. rewrite isspace_lower_char. now apply Hl.
Qed.

Lemma trimmed_not_all_space s :
  trimmed s -> s <> EmptyString -> all_space s = false.
Proof.
  intros [Hh _] Hne. destruct s as [|c s]; [congruence|].
  simpl. now rewrite (Hh c eq_refl).
Qed.

Lemma truthy_true s : truthy s = true <-> s <> EmptyString.
Proof. destruct s; simpl; split; congruence. Qed.

(** [String.prefix] and [contains] decide what their names say. *)
Lemma prefix_spec n h :
  String.prefix n h = true <-> exists post, h = n +:+ post.
Proof.
  revert h. induction n as [|a n IH]; intros h.
  - split; [intros _; now exists h | now destruct h].
  - destruct h as [|b h]; simpl; [split; [discriminate | intros [? [=]]]|].
    destruct (ascii_dec a b) as [->|Hne].
    + rewrite IH. split; intros [post E]; exists post; congruence.
    + split; [discriminate | intros [post [= E _]]; congruence].
Qed.

Lemma contains_spec n h : contains n h = true <-> substring_of n h.
Proof.
  unfold substring_of. induction h as [|b h IH]; cbn [contains].
  - rewrite orb_false_r, prefix_spec. split.
    + intros [post E]. now exists EmptyString, post.
    + intros [pre [post E]]. destruct pre; simpl in E; [now exists post|].
      discriminate.
  - rewrite orb_true_iff, IH, prefix_spec. split.
    + intros [[post E] | [pre [post E]]].
      * now exists EmptyString, post.
      * exists (String b pre), post. simpl. congruence.
    + intros [pre [post E]]. destruct pre as [|c pre]; simpl in E.
      * left. now exists post.
      * right. exists pre, post. congruence.
Qed.

End PyStrFacts.

(** ** Relevance *)

Section Relevance.
Import PyStr.
Local Arguments String.append !s1 s2 : simpl nomatch.

Lemma count_loop_acc content interests k :
  fold_left
    (fun score interest =>
       if contains (lower interest) content then S score else score)
    interests k
  = (k + count_matches content interests)%nat.
Proof.
  unfold count_matches. revert k.
  induction interests as [|t l IH]; intros k; simpl; [lia|].
  rewrite IH. rewrite (IH (if contains (lower t) content then 1%nat else O)).
  destruct (contains (lower t) content); lia.
Qed.

Lemma count_matches_cons content t l :
  count_matches content (t :: l)
  = ((if contains (lower t) content then 1 else 0)
     + count_matches content l)%nat.
Proof.
  unfold count_matches at 1. simpl. rewrite count_loop_acc.
  now destruct (contains (lower t) content).
Qed.

(** The loop counts the topics that are substrings of the content. *)
Lemma count_matches_count_of content topics :
  count_of (fun t => substring_of (lower t) content) topics
           (count_matches content topics).
Proof.
  induction topics as [|t l IH]; [constructor|].
  rewrite count_matches_cons.
  destruct (contains (lower t) content) eqn:Hc.
  - apply count_hit; [now apply contains_spec | exact IH].
  - apply count_miss; [|exact IH].
    intros H%contains_spec. congruence.
Qed.

Lemma count_of_functional P l n m :
  count_of P l n -> count_of P l m -> n = m.
Proof.
  intros Hn. revert m.
  induction Hn as [|t l n Ht _ IH|t l n Ht _ IH]; intros m Hm;
    inversion Hm; subst; try reflexivity; try contradiction.
  - f_equal. now apply IH.
  - now apply IH.
Qed.

Lemma count_of_le P l n : count_of P l n -> (n <= length l)%nat.
Proof. induction 1; simpl; lia. Qed.

Lemma calculate_relevance_strings article t d topics :
  py_get article "title" (JStr "") = Ok (JStr t) ->
  py_get article "description" (JStr "") = Ok (JStr d) ->
  calculate_relevance article topics
  = Ok (count_matches (lower t +:+ " " +:+ lower d) topics).
Proof.
  intros Ht Hd. unfold calculate_relevance.
  rewrite Ht. cbn [mbind result_bind py_lower].
  rewrite Hd. reflexivity.
Qed.

Lemma lower_joined t d :
  lower (t +:+ " " +:+ d) = lower t +:+ " " +:+ lower d.
Proof. now rewrite !lower_app. Qed.

Example relevance_example :
  calculate_relevance (article_of "AI breakthroughs in robotics" "")
                      ["ai"; "robotics"] = Ok 2%nat.
Proof. reflexivity. Qed.

Example relevance_repeated_occurrences :
  calculate_relevance (article_of "AI, ai and more AI" "ai")
                      ["ai"] = Ok 1%nat.
Proof. reflexivity. Qed.

Example relevance_null_description :
  is_ok (calculate_relevance (JObj [("title", JStr "AI"); ("description", JNull)])
                             ["ai"]) = false.
Proof. reflexivity. Qed.

End Relevance.

(** ** Ranking *)

Section Ranking.

Lemma insert_by_score_perm x l : Permutation (insert_by_score x l) (x :: l).
Proof.
  induction l as [|y l IH]; simpl; [reflexivity|].
  destruct (relevance_score y <=? relevance_score x)%nat; [reflexivity|].
  rewrite IH. apply perm_swap.
Qed.

Lemma sort_by_score_perm l : Permutation (sort_by_score l) l.
Proof.
  induction l as [|x l IH]; simpl; [reflexivity|].
  rewrite insert_by_score_perm. now constructor.
Qed.

Lemma insert_by_score_sorted x l :
  StronglySorted score_ge l -> StronglySorted score_ge (insert_by_score x l).
Proof.
  induction 1 as [|y l Hs IH Hall]; simpl.
  - repeat constructor.
  - destruct (Nat.leb_spec (relevance_score y) (relevance_score x)) as [Hle|Hlt].
    + constructor; [now constructor|].
      constructor; [exact Hle|].
      eapply Forall_impl; [exact Hall|].
      unfold score_ge. intros z Hz. simpl in Hz. lia.
    + constructor; [exact IH|].
      rewrite insert_by_score_perm.
      constructor; [unfold score_ge; lia | exact Hall].
Qed.

Lemma sort_by_score_sorted l : StronglySorted score_ge (sort_by_score l).
Proof.
  induction l as [|x l IH]; simpl; [constructor|].
  now apply insert_by_score_sorted.
Qed.



Lemma rank_length l : length (rank l) = Nat.min 5 (length l).
Proof.
  unfold rank. rewrite length_firstn.
  now rewrite (Permutation_length (sort_by_score_perm l)).
Qed.

(** Three articles scored 2, 2, 1 stay as they are; scored 1, 2, 2 the two
    higher ones move in front and keep their order. *)
Example rank_stable_221 :
  let A := mkFormatted (JStr "A") (JStr "") (JStr "") (JStr "") (JStr "") 2 in
  let B := mkFormatted (JStr "B") (JStr "") (JStr "") (JStr "") (JStr "") 2 in
  let C := mkFormatted (JStr "C") (JStr "") (JStr "") (JStr "") (JStr "") 1 in
  rank [A; B; C] = [A; B; C] /\ rank [C; A; B] = [A; B; C].
Proof. split; reflexivity. Qed.

Example rank_caps_at_five :
  let a n := mkFormatted (JStr "") (JStr "") (JStr "") (JStr "") (JStr "") n in
  rank [a 0; a 3; a 1; a 3; a 2; a 5; a 4]%nat
  = [a 5; a 4; a 3; a 3; a 2]%nat.
Proof. reflexivity. Qed.

End Ranking.

(** ** The interest store and the tools *)

Section Tools.
Import PyStr.

Ltac unfold_monad :=
  unfold try_except, mbind, M_bind, mret, M_ret, _error, raise, lift,
    get_USER_INTERESTS, setitem, save_user_interests in *.

Lemma nonempty_true {A} (l : list A) : nonempty l = true <-> l <> [].
Proof. destruct l; simpl; split; congruence. Qed.

Lemma nonempty_false {A} (l : list A) : nonempty l = false <-> l = [].
Proof. destruct l; simpl; split; congruence. Qed.

(** The comprehension of [set_interests] is the normalisation of the
    specification. *)
Lemma clean_normalize topics : clean topics = normalize topics.
Proof.
  unfold normalize. induction topics as [|t l IH]; simpl; [reflexivity|].
  rewrite filter_cons. destruct (strip t) eqn:Hs.
  - rewrite decide_False by (simpl; congruence). exact IH.
  - rewrite decide_True by (simpl; congruence). simpl. now rewrite IH.
Qed.

(** The same list, read as the comprehension is written: filter, then map. *)
Lemma clean_filter_map topics :
  clean topics
  = map (fun t => lower (strip t))
        (filter (fun t => strip t ≠ EmptyString) topics).
Proof.
  induction topics as [|t l IH]; simpl; [reflexivity|].
  rewrite filter_cons. destruct (strip t) eqn:Hs.
  - rewrite decide_False by congruence. exact IH.
  - rewrite decide_True by congruence. simpl. now rewrite Hs, IH.
Qed.

Lemma clean_app l1 l2 : clean (l1 ++ l2) = clean l1 ++ clean l2.
Proof.
  induction l1 as [|t l IH]; simpl; [reflexivity|].
  destruct (truthy (strip t)); simpl; now rewrite IH.
Qed.

Lemma normalized_topic_ok t :
  strip t <> EmptyString -> topic_ok (lower (strip t)).
Proof.
  intros Hne.
  assert (Hne' : lower (strip t) <> EmptyString) by now rewrite lower_empty_iff.
  assert (Htr : trimmed (lower (strip t)))
    by apply trimmed_lower, strip_trimmed.
  repeat split; try apply Htr; try assumption.
  - apply no_upper_lower.
  - now apply trimmed_not_all_space.
Qed.

Lemma clean_topics_ok topics : Forall topic_ok (clean topics).
Proof.
  induction topics as [|t l IH]; simpl; [constructor|].
  destruct (truthy (strip t)) eqn:Ht; [|exact IH].
  constructor; [|exact IH].
  now apply normalized_topic_ok, truthy_true.
Qed.

(** A stored topic is left alone by a second normalisation. *)
Lemma topic_ok_fixed t : topic_ok t -> lower (strip t) = t.
Proof.
  intros (Hne & [Hh Hl] & Hup & _).
  assert (E : strip t = t).
  { unfold strip.
    assert (El : lstrip t = t).
    { destruct t as [|c t]; [reflexivity|]. simpl.
      now rewrite (Hh c eq_refl). }
    rewrite El. clear El Hh Hne Hup.
    induction t as [|c t IH]; [reflexivity|]. simpl.
    destruct t as [|b t].
    - simpl. now rewrite (Hl c eq_refl).
    - rewrite IH by exact Hl. reflexivity. }
  rewrite E. now apply no_upper_fixed.
Qed.

Lemma clean_empty_iff topics :
  clean topics = [] <-> Forall (fun t => strip t = EmptyString) topics.
Proof.
  induction topics as [|t l IH]; simpl.
  - split; [constructor | reflexivity].
  - destruct (strip t) eqn:Hs; simpl.
    + rewrite IH. split; [now constructor | now inversion 1].
    + split; [discriminate | inversion 1; congruence].
Qed.

Lemma clean_nonempty_iff topics :
  clean topics <> [] <-> Exists (fun t => strip t <> EmptyString) topics.
Proof.
  induction topics as [|t l IH]; simpl.
  - split; [congruence | inversion 1].
  - destruct (strip t) eqn:Hs; simpl.
    + rewrite IH. split; [now right | inversion 1; [congruence | assumption]].
    + split; [intros _; left; congruence | discriminate].
Qed.

(** *** What each function does, step by step *)

Lemma user_interests_empty_id w :
  _user_interests "" w
  = (Raise (McpError INVALID_PARAMS "puch_user_id is required"), w).
Proof. reflexivity. Qed.

Lemma user_interests_known id l w :
  id <> EmptyString -> USER_INTERESTS w !! id = Some l ->
  _user_interests id w = (Ok l, w).
Proof.
  intros Hid Hl. destruct id; [congruence|].
  unfold _user_interests, setdefault_empty. simpl. now rewrite Hl.
Qed.

Lemma user_interests_unknown id w :
  id <> EmptyString -> USER_INTERESTS w !! id = None ->
  _user_interests id w
  = (Ok [], mkWorld (<[id := []]> (USER_INTERESTS w)) (USER_INTERESTS_FILE w)).
Proof.
  intros Hid Hl. destruct id; [congruence|].
  unfold _user_interests, setdefault_empty. simpl. now rewrite Hl.
Qed.

Lemma user_interests_state id w : (_user_interests id w).2 = touched id w.
Proof.
  unfold touched, _user_interests, setdefault_empty.
  destruct id; simpl; [reflexivity|].
  now destruct (USER_INTERESTS w !! _).
Qed.

Lemma user_interests_value id w :
  (_user_interests id w).1
  = if truthy id then Ok (interests_of (USER_INTERESTS w) id)
    else Raise (McpError INVALID_PARAMS "puch_user_id is required").
Proof.
  unfold interests_of, _user_interests, setdefault_empty.
  destruct id; simpl; [reflexivity|].
  now destruct (USER_INTERESTS w !! _).
Qed.

Lemma touched_file id w :
  USER_INTERESTS_FILE (touched id w) = USER_INTERESTS_FILE w.
Proof.
  unfold touched. destruct id; [reflexivity|].
  now destruct (USER_INTERESTS w !! _).
Qed.

Lemma touched_interests_of id w k :
  interests_of (USER_INTERESTS (touched id w)) k
  = interests_of (USER_INTERESTS w) k.
Proof.
  unfold touched, interests_of. destruct id as [|c id]; [reflexivity|].
  destruct (USER_INTERESTS w !! String c id) eqn:E; [reflexivity|].
  simpl. destruct (decide (String c id = k)) as [<-|Hne].
  - now rewrite lookup_insert_eq, E.
  - now rewrite lookup_insert_ne.
Qed.

Lemma touched_store_ok id w :
  store_ok (USER_INTERESTS w) -> store_ok (USER_INTERESTS (touched id w)).
Proof.
  unfold touched, store_ok. intros Hok.
  destruct id as [|c id]; [exact Hok|].
  destruct (USER_INTERESTS w !! String c id) eqn:E; [exact Hok|].
  simpl. intros k l. destruct (decide (String c id = k)) as [<-|Hne].
  - rewrite lookup_insert_eq. intros [= <-]. constructor.
  - rewrite lookup_insert_ne by assumption. apply Hok.
Qed.

Lemma user_interests_pair id w :
  _user_interests id w
  = (if truthy id then Ok (interests_of (USER_INTERESTS w) id)
     else Raise (McpError INVALID_PARAMS "puch_user_id is required"),
     touched id w).
Proof.
  rewrite <- user_interests_value, <- user_interests_state.
  now destruct (_user_interests id w).
Qed.

Lemma hello_buzzbot_state id msg w :
  (hello_buzzbot id msg w).2 = touched id w.
Proof.
  unfold hello_buzzbot. unfold_monad. rewrite user_interests_pair.
  destruct (truthy id); [|reflexivity].
  destruct (_ || _); [destruct (nonempty _)|]; reflexivity.
Qed.

Lemma get_interests_run id w :
  get_interests id w
  = (if truthy id
     then Ok (ShowInterests id (interests_of (USER_INTERESTS w) id)
                            (length (interests_of (USER_INTERESTS w) id)))
     else Raise (McpError INTERNAL_ERROR "puch_user_id is required"),
     touched id w).
Proof.
  unfold get_interests. unfold_monad. rewrite user_interests_pair.
  now destruct (truthy id).
Qed.

(** The file after [save_user_interests]. *)
Lemma set_interests_run io id topics w :
  set_interests io id topics w
  = match topics, clean topics with
    | [], _ =>
        (Raise (McpError INVALID_PARAMS "interests must be a non-empty list"), w)
    | _, [] =>
        (Raise (McpError INVALID_PARAMS "interests cannot be empty after cleaning"), w)
    | _, cl =>
        (Ok (InterestsSaved id cl),
         mkWorld (<[id := cl]> (USER_INTERESTS w))
                 match io with
                 | Written => JsonFile (<[id := cl]> (USER_INTERESTS w))
                 | OpenFailed => USER_INTERESTS_FILE w
                 | DumpFailed => BadFile
                 end)
    end.
Proof.
  unfold set_interests. unfold_monad.
  destruct topics as [|t l]; [reflexivity|]. cbn [nonempty negb].
  destruct (clean (t :: l)) as [|c cl]; [reflexivity|]. cbn [nonempty negb].
  destruct io; reflexivity.
Qed.

Lemma fetch_run net interests w :
  fetch_news_by_interests net interests w
  = (Ok (match fetch_body net interests with Ok l => l | Raise _ => [] end), w).
Proof.
  unfold fetch_news_by_interests. unfold_monad.
  destruct (fetch_body net interests) as [l|[]]; reflexivity.
Qed.

Lemma get_latest_news_run net id w :
  get_latest_news net id w
  = (if truthy id then
       match interests_of (USER_INTERESTS w) id with
       | [] =>
           Raise (McpError INVALID_PARAMS
             "No interests set. Please set interests first using set_interests or say 'hello' to get started.")
       | interests =>
           match (fetch_news_by_interests net interests (touched id w)).1 with
           | Ok [] => Ok (NoNewsFound id interests)
           | Ok articles =>
               Ok (NewsDisplayed id interests (length articles) articles)
           | Raise e => Raise e
           end
       end
     else Raise (McpError INVALID_PARAMS "puch_user_id is required"),
     touched id w).
Proof.
  unfold get_latest_news. unfold_monad. rewrite user_interests_pair.
  destruct (truthy id); [|reflexivity].
  destruct (interests_of (USER_INTERESTS w) id) as [|t l]; [reflexivity|].
  cbn [nonempty negb]. rewrite !fetch_run. cbn [fst].
  destruct (fetch_body net (t :: l)) as [[|a arts]|e]; reflexivity.
Qed.

(** Whatever the service answers, what [fetch_body] returns is ranked. *)
Lemma fetch_body_ranked net interests l :
  fetch_body net interests = Ok l ->
  exists formatted, l = rank formatted.
Proof.
  unfold fetch_body. intros H.
  destruct (first_item interests); [|discriminate]. cbn [mbind result_bind] in H.
  destruct (requests_get _ _) as [[st bd]|]; [|discriminate]. cbn [mbind result_bind fst snd] in H.
  destruct (raise_for_status st); [|discriminate]. cbn [mbind result_bind] in H.
  destruct (response_json bd); [|discriminate]. cbn [mbind result_bind] in H.
  destruct (py_get _ _ _); [|discriminate]. cbn [mbind result_bind] in H.
  destruct (py_slice5 _); [|discriminate]. cbn [mbind result_bind] in H.
  destruct (format_articles _ _) as [f|]; [|discriminate].
  cbn [mbind result_bind mret result_ret] in H.
  exists f. unfold mret, result_ret in H. congruence.
Qed.

Lemma rank_sorted l : StronglySorted score_ge (rank l).
Proof.
  unfold rank. pose proof (sort_by_score_sorted l) as H.
  rewrite <- (firstn_skipn 5 (sort_by_score l)) in H.
  now apply StronglySorted_app_1_l in H.
Qed.

(** A write that succeeds leaves in the file the map that memory holds. *)
Lemma set_interests_persists id topics w :
  is_ok (set_interests Written id topics w).1 = true ->
  load_user_interests (USER_INTERESTS_FILE (set_interests Written id topics w).2)
  = USER_INTERESTS (set_interests Written id topics w).2.
Proof.
  rewrite set_interests_run.
  destruct topics as [|t l]; [discriminate|].
  destruct (clean (t :: l)); [discriminate | reflexivity].
Qed.

End Tools.

(** ** The claims *)

(** C1: for every (non-empty) identifier and every topic list that is not
    empty after normalisation, [set_interests] succeeds and a following
    [get_interests] returns exactly the normalised list (every entry trimmed
    and lowercased, entries empty after trimming dropped, order kept),
    together with its length. *)
Theorem C1_set_then_get_interests io id topics w :
  id <> EmptyString ->
  normalize topics <> [] ->
  (set_interests io id topics w).1 = Ok (InterestsSaved id (normalize topics))
  /\ (get_interests id (set_interests io id topics w).2).1
     = Ok (ShowInterests id (normalize topics) (length (normalize topics))).
Proof.
  intros Hid Hn. rewrite <- clean_normalize in *.
  rewrite set_interests_run.
  destruct topics as [|t l]; [now simpl in Hn|].
  destruct (clean (t :: l)) as [|c cl] eqn:Hc; [congruence|].
  split; [reflexivity|].
  rewrite get_interests_run. cbn [fst snd USER_INTERESTS].
  destruct id; [congruence|]. cbn [PyStr.truthy].
  unfold interests_of. now rewrite lookup_insert_eq.
Qed.

Lemma C1_set_then_get_interests_witness :
  "u1" <> EmptyString
  /\ normalize ["  Technology "; "   "; "SPORTS"] <> []
  /\ (set_interests Written "u1" ["  Technology "; "   "; "SPORTS"]
        (mkWorld ∅ NoFile)).1
     = Ok (InterestsSaved "u1" ["technology"; "sports"])
  /\ (get_interests "u1"
        (set_interests Written "u1" ["  Technology "; "   "; "SPORTS"]
           (mkWorld ∅ NoFile)).2).1
     = Ok (ShowInterests "u1" ["technology"; "sports"] 2).
Proof.
  assert (H1 : "u1" <> EmptyString) by discriminate.
  assert (H2 : normalize ["  Technology "; "   "; "SPORTS"] <> [])
    by (vm_compute; discriminate).
  split; [exact H1|]. split; [exact H2|].
  exact (C1_set_then_get_interests Written "u1"
           ["  Technology "; "   "; "SPORTS"] (mkWorld ∅ NoFile) H1 H2).
Defined.

(** C2 (what the code does when the identifier is the empty string):
    [get_latest_news] fails with [INVALID_PARAMS]; [hello_buzzbot] and
    [get_interests] turn the same [McpError] into [INTERNAL_ERROR], having
    no [except McpError: raise]; [set_interests] never looks at the
    identifier and stores the list under the empty key. *)
Theorem C2_empty_identifier io net msg w :
  (get_latest_news net "" w).1
    = Raise (McpError INVALID_PARAMS "puch_user_id is required")
  /\ (hello_buzzbot "" msg w).1
    = Raise (McpError INTERNAL_ERROR "puch_user_id is required")
  /\ (get_interests "" w).1
    = Raise (McpError INTERNAL_ERROR "puch_user_id is required")
  /\ (set_interests io "" ["ai"] w).1 = Ok (InterestsSaved "" ["ai"])
  /\ USER_INTERESTS (set_interests io "" ["ai"] w).2 !! "" = Some ["ai"].
Proof.
  repeat split; try reflexivity.
  rewrite set_interests_run. cbn. apply lookup_insert_eq.
Qed.

(** C3 as stated fails: greeting an identifier that the map does not hold
    leaves a new entry behind. *)
Lemma C3_counterexample :
  (hello_buzzbot "u1" "hello" (mkWorld ∅ NoFile)).2 <> mkWorld ∅ NoFile.
Proof.
  rewrite hello_buzzbot_state. intros H.
  apply (f_equal (fun w => USER_INTERESTS w !! "u1")) in H.
  vm_compute in H. discriminate.
Qed.

(** C3, amended: for every identifier and message, [hello_buzzbot] leaves the
    file untouched and does not change the list read for any identifier
    (an absent identifier reads as the empty list).  When the identifier is
    empty or already a key, the state is exactly as it was; when it is a
    non-empty string that the map does not hold, the state is the old one
    with exactly one entry more, the identifier bound to the empty list. *)
Theorem C3_greet_frame id msg w :
  USER_INTERESTS_FILE (hello_buzzbot id msg w).2 = USER_INTERESTS_FILE w
  /\ (forall k, interests_of (USER_INTERESTS (hello_buzzbot id msg w).2) k
                = interests_of (USER_INTERESTS w) k)
  /\ (((id = EmptyString \/ is_Some (USER_INTERESTS w !! id))
       /\ (hello_buzzbot id msg w).2 = w)
      \/ (id <> EmptyString /\ USER_INTERESTS w !! id = None
          /\ (hello_buzzbot id msg w).2
             = mkWorld (<[id := []]> (USER_INTERESTS w)) (USER_INTERESTS_FILE w)
          /\ USER_INTERESTS (hello_buzzbot id msg w).2 !! id = Some []
          /\ (hello_buzzbot id msg w).2 <> w)).
Proof.
  rewrite hello_buzzbot_state. split; [apply touched_file|].
  split; [apply touched_interests_of|].
  unfold touched. destruct id as [|c id]; [left; split; [now left | reflexivity]|].
  destruct (USER_INTERESTS w !! String c id) eqn:E.
  - left. split; [right; eauto | reflexivity].
  - right. split; [discriminate|]. split; [reflexivity|]. split; [reflexivity|].
    split; [apply lookup_insert_eq|].
    intros H. apply (f_equal (fun x => USER_INTERESTS x !! String c id)) in H.
    cbn in H. rewrite lookup_insert_eq, E in H. discriminate.
Qed.

(** C4 as stated fails: the text searched is not the bare concatenation of
    title and description.  With title [a], description [b] and the topic
    [ab], the topic occurs in the concatenation [ab], yet the code scores 0. *)
Lemma C4_counterexample :
  calculate_relevance (article_of "a" "b") ["ab"] = Ok O
  /\ count_of (occurs_ignoring_case ("a" +:+ "b")) ["ab"] 1
  /\ ~ count_of (occurs_ignoring_case ("a" +:+ "b")) ["ab"] 0.
Proof.
  assert (H1 : count_of (occurs_ignoring_case ("a" +:+ "b")) ["ab"] 1).
  { apply count_hit; [|constructor].
    apply contains_spec. reflexivity. }
  split; [reflexivity|]. split; [exact H1|].
  intros H0. pose proof (count_of_functional _ _ _ _ H0 H1). discriminate.
Qed.

(** C4, amended: for every article whose title and description are strings
    (an absent one counting as the empty string) and every topic list, the
    relevance score is the number of topics that occur, ignoring case, as a
    substring of the title and the description joined by one space; every
    matching topic counts once however often it occurs.  For topics
    [ai], [robotics], title [AI breakthroughs in robotics] and an empty
    description the score is 2. *)
Theorem C4_relevance_counts_topics article t d topics :
  py_get article "title" (JStr "") = Ok (JStr t) ->
  py_get article "description" (JStr "") = Ok (JStr d) ->
  (exists n,
      calculate_relevance article topics = Ok n
      /\ count_of (occurs_ignoring_case (t +:+ " " +:+ d)) topics n
      /\ (n <= length topics)%nat)
  /\ calculate_relevance (article_of "AI breakthroughs in robotics" "")
                         ["ai"; "robotics"] = Ok 2%nat.
Proof.
  intros Ht Hd. split; [|reflexivity].
  exists (count_matches (PyStr.lower t +:+ " " +:+ PyStr.lower d) topics).
  assert (Hc : count_of (occurs_ignoring_case (t +:+ " " +:+ d)) topics
                 (count_matches (PyStr.lower t +:+ " " +:+ PyStr.lower d) topics)).
  { unfold occurs_ignoring_case. rewrite lower_joined.
    apply count_matches_count_of. }
  split; [now apply calculate_relevance_strings|].
  split; [exact Hc | exact (count_of_le _ _ _ Hc)].
Qed.

Lemma C4_relevance_counts_topics_witness :
  (exists n,
      calculate_relevance (article_of "Robotics: AI and ai" "Sports")
                          ["ai"; "robotics"; "politics"] = Ok n
      /\ count_of (occurs_ignoring_case ("Robotics: AI and ai" +:+ " " +:+ "Sports"))
                  ["ai"; "robotics"; "politics"] n
      /\ (n <= 3)%nat)
  /\ calculate_relevance (article_of "AI breakthroughs in robotics" "")
                         ["ai"; "robotics"] = Ok 2%nat.
Proof.
  exact (C4_relevance_counts_topics
           (article_of "Robotics: AI and ai" "Sports")
           "Robotics: AI and ai" "Sports" ["ai"; "robotics"; "politics"]
           eq_refl eq_refl).
Defined.


(** C6: for every identifier, [set_interests] fails with [INVALID_PARAMS]
    exactly when the topic list is empty or every entry is empty after
    trimming, and succeeds exactly when some entry is not empty after
    trimming; it never fails in another way.  The empty list and the list of
    a blank and an empty string both fail. *)
Theorem C6_set_interests_validation io id topics w :
  (is_invalid_argument (set_interests io id topics w).1 = true
   <-> topics = [] \/ Forall (fun t => PyStr.strip t = EmptyString) topics)
  /\ (is_ok (set_interests io id topics w).1 = true
      <-> Exists (fun t => PyStr.strip t <> EmptyString) topics)
  /\ is_invalid_argument (set_interests io id [] w).1 = true
  /\ is_invalid_argument (set_interests io id [" "; ""] w).1 = true.
Proof.
  split; [|split; [|split; reflexivity]].
  - rewrite set_interests_run.
    destruct topics as [|t l]; [simpl; split; [now left | reflexivity]|].
    destruct (clean (t :: l)) as [|c cl] eqn:Hc; cbn [fst is_invalid_argument].
    + split; [intros _; right; now apply clean_empty_iff | reflexivity].
    + split; [discriminate|].
      intros [H|H%clean_empty_iff]; congruence.
  - rewrite <- clean_nonempty_iff, set_interests_run.
    destruct topics as [|t l]; [simpl; split; congruence|].
    destruct (clean (t :: l)) as [|c cl] eqn:Hc; cbn [fst is_ok];
      split; congruence.
Qed.

(** C7: when the list read for the identifier is empty (also for an
    identifier the map has never held), [get_latest_news] fails with
    [INVALID_PARAMS]; when it is not empty (and the identifier is a
    non-empty string) the call succeeds: with what the fetch returned, the
    reply is the no-news notice if that list is empty and otherwise the
    list, ranked, at most five long, with its length as count. *)
Theorem C7_get_latest_news_outcomes net id w :
  (interests_of (USER_INTERESTS w) id = [] ->
   is_invalid_argument (get_latest_news net id w).1 = true)
  /\ (id <> EmptyString ->
      interests_of (USER_INTERESTS w) id <> [] ->
      exists articles,
        (fetch_news_by_interests net (interests_of (USER_INTERESTS w) id) w).1
          = Ok articles
        /\ (get_latest_news net id w).1
           = Ok (if nonempty articles
                 then NewsDisplayed id (interests_of (USER_INTERESTS w) id)
                                    (length articles) articles
                 else NoNewsFound id (interests_of (USER_INTERESTS w) id))
        /\ StronglySorted score_ge articles
        /\ (length articles <= 5)%nat).
Proof.
  rewrite get_latest_news_run. cbn [fst]. split.
  - intros ->. now destruct (PyStr.truthy id).
  - intros Hid Hne. destruct id as [|c id]; [congruence|]. cbn [PyStr.truthy].
    destruct (interests_of (USER_INTERESTS w) (String c id)) as [|t l];
      [congruence|].
    rewrite !fetch_run. cbn [fst].
    destruct (fetch_body net (t :: l)) as [arts|e] eqn:Hf.
    + exists arts. destruct (fetch_body_ranked _ _ _ Hf) as [f ->].
      split; [reflexivity|]. split; [now destruct (rank f)|].
      split; [apply rank_sorted | rewrite rank_length; lia].
    + exists []. repeat split; try constructor. simpl. lia.
Qed.

Lemma C7_get_latest_news_outcomes_witness :
  (interests_of (∅ : gmap string (list string)) "u1" = []
   /\ is_invalid_argument
        (get_latest_news (fun _ => TimedOut) "u1" (mkWorld ∅ NoFile)).1 = true)
  /\ ("u1" <> EmptyString
      /\ interests_of ({["u1" := ["ai"]]} : gmap string (list string)) "u1" <> []
      /\ exists articles,
        (fetch_news_by_interests (fun _ => TimedOut)
           (interests_of ({["u1" := ["ai"]]} : gmap string (list string)) "u1")
           (mkWorld {["u1" := ["ai"]]} NoFile)).1 = Ok articles
        /\ (get_latest_news (fun _ => TimedOut) "u1"
              (mkWorld {["u1" := ["ai"]]} NoFile)).1
           = Ok (if nonempty articles
                 then NewsDisplayed "u1"
                        (interests_of ({["u1" := ["ai"]]} : gmap string (list string)) "u1")
                        (length articles) articles
                 else NoNewsFound "u1"
                        (interests_of ({["u1" := ["ai"]]} : gmap string (list string)) "u1"))
        /\ StronglySorted score_ge articles
        /\ (length articles <= 5)%nat).
Proof.
  assert (H0 : interests_of (∅ : gmap string (list string)) "u1" = [])
    by reflexivity.
  assert (H1 : "u1" <> EmptyString) by discriminate.
  assert (H2 : interests_of ({["u1" := ["ai"]]} : gmap string (list string)) "u1" <> [])
    by (vm_compute; discriminate).
  split.
  - split; [exact H0|].
    exact (proj1 (C7_get_latest_news_outcomes (fun _ => TimedOut) "u1"
                    (mkWorld ∅ NoFile)) H0).
  - split; [exact H1|]. split; [exact H2|].
    exact (proj2 (C7_get_latest_news_outcomes (fun _ => TimedOut) "u1"
                    (mkWorld {["u1" := ["ai"]]} NoFile)) H1 H2).
Defined.

(** C8 as stated fails: not every status that is no success empties the
    result.  [raise_for_status] rejects 4xx and 5xx only; an answer with
    status 399, or 600, and a JSON body is read like a 200. *)
Lemma C8_counterexample :
  is_success_status 399 = false
  /\ is_success_status 600 = false
  /\ fetch_news_by_interests
       (fun _ => Responded 399 (Some (JObj [("articles", JArr [article_of "AI" ""])])))
       ["ai"] (mkWorld ∅ NoFile)
     = (Ok [mkFormatted (JStr "AI") (JStr "") (JStr "") (JStr "") (JStr "") 1],
        mkWorld ∅ NoFile)
  /\ (fetch_news_by_interests
        (fun _ => Responded 600 (Some (JObj [("articles", JArr [article_of "AI" ""])])))
        ["ai"] (mkWorld ∅ NoFile)).1
     <> Ok [].
Proof.
  split; [reflexivity|]. split; [reflexivity|]. split; [reflexivity|].
  vm_compute. discriminate.
Qed.

(** C8, amended: for every non-empty topic list the fetch returns a list
    and never raises, and it leaves the process state (map and file) as it
    was; when the request times out, fails in transport, or is answered with
    a 4xx or 5xx status (the statuses that [raise_for_status] rejects), the
    list returned is empty. *)
Theorem C8_fetch_never_raises net interests w :
  interests <> [] ->
  exists articles,
    fetch_news_by_interests net interests w = (Ok articles, w)
    /\ (net (build_request interests) = TimedOut -> articles = [])
    /\ (net (build_request interests) = TransportFailed -> articles = [])
    /\ (forall status_code body,
          net (build_request interests) = Responded status_code body ->
          is_http_error status_code = true -> articles = []).
Proof.
  intros Hne. rewrite fetch_run. eexists. split; [reflexivity|].
  destruct interests as [|t l]; [congruence|].
  unfold fetch_body, requests_get, raise_for_status.
  cbn [first_item mbind result_bind].
  repeat split.
  - intros ->. reflexivity.
  - intros ->. reflexivity.
  - intros st bd -> Hst. cbn [mbind result_bind fst snd]. now rewrite Hst.
Qed.

Lemma C8_fetch_never_raises_witness :
  ["ai"; "sports"] <> []
  /\ fetch_news_by_interests (fun _ => TimedOut) ["ai"; "sports"]
       (mkWorld {["u1" := ["ai"; "sports"]]} NoFile)
     = (Ok [], mkWorld {["u1" := ["ai"; "sports"]]} NoFile)
  /\ fetch_news_by_interests (fun _ => Responded 503 None) ["ai"; "sports"]
       (mkWorld {["u1" := ["ai"; "sports"]]} NoFile)
     = (Ok [], mkWorld {["u1" := ["ai"; "sports"]]} NoFile).
Proof.
  assert (H : ["ai"; "sports"] <> []) by discriminate.
  split; [exact H|]. split.
  - destruct (C8_fetch_never_raises (fun _ => TimedOut) ["ai"; "sports"]
                (mkWorld {["u1" := ["ai"; "sports"]]} NoFile) H)
      as (arts & E & Ht & _ & _).
    rewrite E. now rewrite (Ht eq_refl).
  - destruct (C8_fetch_never_raises (fun _ => Responded 503 None) ["ai"; "sports"]
                (mkWorld {["u1" := ["ai"; "sports"]]} NoFile) H)
      as (arts & E & _ & _ & Hr).
    rewrite E. now rewrite (Hr 503 None eq_refl eq_refl).
Defined.

(** Every request leaves one of three states behind. *)
Lemma run_state c w :
  (run c w).2 = w
  \/ (exists id, (run c w).2 = touched id w)
  \/ (exists id topics f,
        (run c w).2 = mkWorld (<[id := clean topics]> (USER_INTERESTS w)) f).
Proof.
  destruct c as [id msg|io id topics|id|net id]; simpl.
  - right. left. exists id. apply hello_buzzbot_state.
  - rewrite set_interests_run.
    destruct topics as [|t l]; [now left|].
    destruct (clean (t :: l)) as [|c cl] eqn:Hc; [now left|].
    right. right. exists id, (t :: l). rewrite Hc. eexists. reflexivity.
  - right. left. exists id. now rewrite get_interests_run.
  - right. left. exists id. now rewrite get_latest_news_run.
Qed.

Lemma run_store_ok c w :
  store_ok (USER_INTERESTS w) -> store_ok (USER_INTERESTS (run c w).2).
Proof.
  intros Hok.
  destruct (run_state c w) as [->|[[id ->]|(id & topics & f & ->)]].
  - exact Hok.
  - now apply touched_store_ok.
  - simpl. intros k l. destruct (decide (id = k)) as [<-|Hne].
    + rewrite lookup_insert_eq. intros [= <-]. apply clean_topics_ok.
    + rewrite lookup_insert_ne by assumption. apply Hok.
Qed.

Lemma run_all_store_ok cs w :
  store_ok (USER_INTERESTS w) -> store_ok (USER_INTERESTS (run_all cs w)).
Proof.
  revert w. induction cs as [|c cs IH]; intros w Hok; simpl; [exact Hok|].
  apply IH. now apply run_store_ok.
Qed.

(** A server started without a file holds only well-formed lists after any
    session. *)
Lemma session_store_ok cs :
  store_ok (USER_INTERESTS (run_all cs (mkWorld (load_user_interests NoFile) NoFile))).
Proof.
  apply run_all_store_ok. intros id l H.
  simpl in H. rewrite lookup_empty in H. discriminate.
Qed.

(** C9: every request keeps the invariant that each stored topic is
    trimmed, lowercased, not empty and not blank; and what a successful
    [set_interests] stores is one entry for each supplied entry that is not
    blank, in order, so that a topic supplied twice is stored twice. *)
Theorem C9_store_invariant :
  (forall c w,
      store_ok (USER_INTERESTS w) -> store_ok (USER_INTERESTS (run c w).2))
  /\ (forall io id topics w,
        is_ok (set_interests io id topics w).1 = true ->
        USER_INTERESTS (set_interests io id topics w).2 !! id
        = Some (map (fun t => PyStr.lower (PyStr.strip t))
                    (filter (fun t => PyStr.strip t ≠ EmptyString) topics)))
  /\ (forall io id w,
        USER_INTERESTS (set_interests io id ["ai"; " AI "; "ai"] w).2 !! id
        = Some ["ai"; "ai"; "ai"]).
Proof.
  split; [|split].
  - intros c w Hok. now apply run_store_ok.
  - intros io id topics w. rewrite set_interests_run, <- clean_filter_map.
    destruct topics as [|t l]; [discriminate|].
    destruct (clean (t :: l)) as [|c cl] eqn:Hc; [discriminate|].
    intros _. cbn [snd USER_INTERESTS]. apply lookup_insert_eq.
  - intros io id w. rewrite set_interests_run. cbn. apply lookup_insert_eq.
Qed.

Lemma C9_store_invariant_witness :
  store_ok (∅ : gmap string (list string))
  /\ store_ok (USER_INTERESTS
                 (run (CallSetInterests Written "u1" [" Tech"; "tech"; ""])
                      (mkWorld ∅ NoFile)).2)
  /\ USER_INTERESTS
       (set_interests Written "u1" [" Tech"; "tech"; ""] (mkWorld ∅ NoFile)).2
       !! "u1"
     = Some ["tech"; "tech"].
Proof.
  assert (H0 : store_ok (∅ : gmap string (list string))).
  { intros id l H. rewrite lookup_empty in H. discriminate. }
  split; [exact H0|]. split.
  - exact (proj1 C9_store_invariant
             (CallSetInterests Written "u1" [" Tech"; "tech"; ""])
             (mkWorld ∅ NoFile) H0).
  - exact (proj1 (proj2 C9_store_invariant)
             Written "u1" [" Tech"; "tech"; ""] (mkWorld ∅ NoFile) eq_refl).
Defined.

(** C10: [get_latest_news] for a non-empty identifier that the map does not
    hold fails with [INVALID_PARAMS], and the state it leaves is the old one
    with the identifier added to the map, bound to the empty list. *)
Theorem C10_get_latest_news_not_atomic net id w :
  id <> EmptyString ->
  USER_INTERESTS w !! id = None ->
  is_invalid_argument (get_latest_news net id w).1 = true
  /\ USER_INTERESTS (get_latest_news net id w).2 !! id = Some []
  /\ (get_latest_news net id w).2
     = mkWorld (<[id := []]> (USER_INTERESTS w)) (USER_INTERESTS_FILE w)
  /\ (get_latest_news net id w).2 <> w.
Proof.
  intros Hid Hnone. rewrite get_latest_news_run. cbn [fst snd].
  destruct id as [|c id]; [congruence|].
  unfold touched, interests_of. rewrite !Hnone. cbn.
  split; [reflexivity|]. split; [apply lookup_insert_eq|].
  split; [reflexivity|].
  intros H. apply (f_equal (fun x => USER_INTERESTS x !! String c id)) in H.
  cbn in H. rewrite lookup_insert_eq, Hnone in H. discriminate.
Qed.

Lemma C10_get_latest_news_not_atomic_witness :
  "u1" <> EmptyString
  /\ (∅ : gmap string (list string)) !! "u1" = None
  /\ is_invalid_argument
       (get_latest_news (fun _ => TimedOut) "u1" (mkWorld ∅ NoFile)).1 = true
  /\ USER_INTERESTS
       (get_latest_news (fun _ => TimedOut) "u1" (mkWorld ∅ NoFile)).2 !! "u1"
     = Some []
  /\ (get_latest_news (fun _ => TimedOut) "u1" (mkWorld ∅ NoFile)).2
     = mkWorld (<["u1" := []]> ∅) NoFile
  /\ (get_latest_news (fun _ => TimedOut) "u1" (mkWorld ∅ NoFile)).2
     <> mkWorld ∅ NoFile.
Proof.
  assert (H1 : "u1" <> EmptyString) by discriminate.
  assert (H2 : (∅ : gmap string (list string)) !! "u1" = None) by reflexivity.
  split; [exact H1|]. split; [exact H2|].
  exact (C10_get_latest_news_not_atomic (fun _ => TimedOut) "u1"
           (mkWorld ∅ NoFile) H1 H2).
Defined.

(** ** Further properties of the store *)

Section Store.

Lemma touched_idem id w : touched id (touched id w) = touched id w.
Proof.
  unfold touched. destruct id as [|c id]; [reflexivity|].
  destruct (USER_INTERESTS w !! String c id) eqn:E; [now rewrite E|].
  simpl. now rewrite lookup_insert_eq.
Qed.

Lemma touched_known id l w :
  USER_INTERESTS w !! id = Some l -> touched id w = w.
Proof. intros H. unfold touched. destruct id; [reflexivity|]. now rewrite H. Qed.

Lemma interests_of_insert_ne (m : gmap string (list string)) id k l :
  id <> k -> interests_of (<[id := l]> m) k = interests_of m k.
Proof. intros H. unfold interests_of. now rewrite lookup_insert_ne. Qed.

Lemma is_ok_set_interests io id topics w :
  is_ok (set_interests io id topics w).1 = nonempty (clean topics).
Proof.
  rewrite set_interests_run. destruct topics as [|t l]; [reflexivity|].
  now destruct (clean (t :: l)).
Qed.

Lemma set_interests_ok_state io id topics w :
  is_ok (set_interests io id topics w).1 = true ->
  USER_INTERESTS (set_interests io id topics w).2
  = <[id := clean topics]> (USER_INTERESTS w).
Proof.
  rewrite set_interests_run. destruct topics as [|t l]; [discriminate|].
  destruct (clean (t :: l)); [discriminate | reflexivity].
Qed.

Lemma run_keeps_other_lists k c w :
  is_set_for k c = false ->
  interests_of (USER_INTERESTS (run c w).2) k = interests_of (USER_INTERESTS w) k.
Proof.
  destruct c as [id msg|io id topics|id|net id]; simpl; intros Hk.
  - rewrite hello_buzzbot_state. apply touched_interests_of.
  - apply bool_decide_eq_false in Hk. rewrite set_interests_run.
    destruct topics as [|t l]; [reflexivity|].
    destruct (clean (t :: l)); [reflexivity|].
    now apply interests_of_insert_ne.
  - rewrite get_interests_run. apply touched_interests_of.
  - rewrite get_latest_news_run. apply touched_interests_of.
Qed.

Lemma PyStr_truthy_strip s :
  PyStr.strip s <> EmptyString -> PyStr.truthy (PyStr.strip s) = true.
Proof. apply truthy_true. Qed.

Lemma clean_fixed l : Forall topic_ok l -> clean l = l.
Proof.
  induction 1 as [|t l Ht _ IH]; simpl; [reflexivity|].
  pose proof (topic_ok_fixed t Ht) as E.
  assert (Hs : PyStr.strip t <> EmptyString).
  { intros Hs. rewrite Hs in E. simpl in E. destruct Ht as [Hne _]. congruence. }
  apply PyStr_truthy_strip in Hs. rewrite Hs, E, IH. reflexivity.
Qed.

End Store.

(** X1: [get_interests] never fails for a non-empty identifier: it returns
    the list read for it (the empty list for an identifier the map does not
    hold) with its length as count, and leaves the file and every list
    read as they were. *)
Theorem get_interests_total id w :
  id <> EmptyString ->
  (get_interests id w).1
  = Ok (ShowInterests id (interests_of (USER_INTERESTS w) id)
          (length (interests_of (USER_INTERESTS w) id)))
  /\ USER_INTERESTS_FILE (get_interests id w).2 = USER_INTERESTS_FILE w
  /\ forall k, interests_of (USER_INTERESTS (get_interests id w).2) k
               = interests_of (USER_INTERESTS w) k.
Proof.
  intros Hid. rewrite get_interests_run. cbn [fst snd].
  destruct id; [congruence|].
  split; [reflexivity|]. split; [apply touched_file|].
  intros k. apply touched_interests_of.
Qed.

Lemma get_interests_total_witness :
  "nobody" <> EmptyString
  /\ (get_interests "nobody" (mkWorld {["u1" := ["ai"]]} NoFile)).1
     = Ok (ShowInterests "nobody" [] 0)
  /\ USER_INTERESTS_FILE (get_interests "nobody" (mkWorld {["u1" := ["ai"]]} NoFile)).2
     = NoFile
  /\ forall k,
      interests_of (USER_INTERESTS
                      (get_interests "nobody" (mkWorld {["u1" := ["ai"]]} NoFile)).2) k
      = interests_of ({["u1" := ["ai"]]} : gmap string (list string)) k.
Proof.
  assert (H : "nobody" <> EmptyString) by discriminate.
  split; [exact H|].
  exact (get_interests_total "nobody" (mkWorld {["u1" := ["ai"]]} NoFile) H).
Defined.

(** X2: reading twice is reading once: a second [get_interests] for the
    same identifier gives the same reply and the same state as the first. *)
Theorem get_interests_idempotent id w :
  get_interests id (get_interests id w).2 = get_interests id w.
Proof.
  rewrite !get_interests_run. cbn [snd].
  now rewrite touched_idem, touched_interests_of.
Qed.

(** X3: the list read for an identifier changes only through a
    [set_interests] for that identifier: a session without one leaves it as
    it was, whatever else is asked by or for other identifiers. *)
Theorem session_keeps_other_lists k cs w :
  Forall (fun c => is_set_for k c = false) cs ->
  interests_of (USER_INTERESTS (run_all cs w)) k
  = interests_of (USER_INTERESTS w) k.
Proof.
  intros H. revert w. induction H as [|c cs Hc _ IH]; intros w; simpl;
    [reflexivity|].
  rewrite IH. now apply run_keeps_other_lists.
Qed.

Lemma session_keeps_other_lists_witness :
  Forall (fun c => is_set_for "u1" c = false)
    [CallSetInterests Written "u2" ["sports"]; CallGetInterests "u1";
     CallHello "u3" "hi"; CallGetLatestNews (fun _ => TimedOut) "u1"]
  /\ interests_of
       (USER_INTERESTS
          (run_all [CallSetInterests Written "u2" ["sports"]; CallGetInterests "u1";
                    CallHello "u3" "hi"; CallGetLatestNews (fun _ => TimedOut) "u1"]
                   (mkWorld {["u1" := ["ai"]]} NoFile))) "u1"
     = interests_of ({["u1" := ["ai"]]} : gmap string (list string)) "u1".
Proof.
  assert (H : Forall (fun c => is_set_for "u1" c = false)
    [CallSetInterests Written "u2" ["sports"]; CallGetInterests "u1";
     CallHello "u3" "hi"; CallGetLatestNews (fun _ => TimedOut) "u1"])
    by (repeat constructor).
  split; [exact H|].
  exact (session_keeps_other_lists "u1" _ (mkWorld {["u1" := ["ai"]]} NoFile) H).
Defined.

(** X4: [set_interests] replaces, it does not append: when the second of two
    calls for one identifier succeeds, reply and in-memory map are what the
    second call alone would have given. *)
Theorem set_interests_last_wins io1 io2 id topics1 topics2 w :
  is_ok (set_interests io2 id topics2 w).1 = true ->
  (set_interests io2 id topics2 (set_interests io1 id topics1 w).2).1
  = (set_interests io2 id topics2 w).1
  /\ USER_INTERESTS (set_interests io2 id topics2 (set_interests io1 id topics1 w).2).2
     = USER_INTERESTS (set_interests io2 id topics2 w).2.
Proof.
  intros Hok.
  assert (Hok' : is_ok (set_interests io2 id topics2
                          (set_interests io1 id topics1 w).2).1 = true)
    by (rewrite is_ok_set_interests in *; exact Hok).
  split.
  - rewrite !(set_interests_run io2). destruct topics2 as [|t l]; [reflexivity|].
    now destruct (clean (t :: l)).
  - rewrite !(set_interests_ok_state io2) by assumption.
    rewrite (set_interests_run io1). destruct topics1 as [|t l]; [reflexivity|].
    destruct (clean (t :: l)); [reflexivity|].
    cbn [snd USER_INTERESTS]. apply insert_insert_eq.
Qed.

Lemma set_interests_last_wins_witness :
  is_ok (set_interests Written "u1" ["Sports"] (mkWorld ∅ NoFile)).1 = true
  /\ (set_interests Written "u1" ["Sports"]
        (set_interests DumpFailed "u1" ["ai"; "tech"] (mkWorld ∅ NoFile)).2).1
     = (set_interests Written "u1" ["Sports"] (mkWorld ∅ NoFile)).1
  /\ USER_INTERESTS
       (set_interests Written "u1" ["Sports"]
          (set_interests DumpFailed "u1" ["ai"; "tech"] (mkWorld ∅ NoFile)).2).2
     = USER_INTERESTS (set_interests Written "u1" ["Sports"] (mkWorld ∅ NoFile)).2.
Proof.
  assert (H : is_ok (set_interests Written "u1" ["Sports"] (mkWorld ∅ NoFile)).1 = true)
    by reflexivity.
  split; [exact H|].
  exact (set_interests_last_wins DumpFailed Written "u1" ["ai"; "tech"] ["Sports"]
           (mkWorld ∅ NoFile) H).
Defined.

(** X5: a [set_interests] that fails changes nothing, neither map nor
    file. *)
Theorem set_interests_failure_is_clean io id topics w :
  is_ok (set_interests io id topics w).1 = false ->
  (set_interests io id topics w).2 = w.
Proof.
  rewrite set_interests_run. destruct topics as [|t l]; [reflexivity|].
  destruct (clean (t :: l)); [reflexivity | discriminate].
Qed.

Lemma set_interests_failure_is_clean_witness :
  is_ok (set_interests Written "u1" ["  "; ""] (mkWorld {["u1" := ["ai"]]} NoFile)).1
  = false
  /\ (set_interests Written "u1" ["  "; ""] (mkWorld {["u1" := ["ai"]]} NoFile)).2
     = mkWorld {["u1" := ["ai"]]} NoFile.
Proof.
  assert (H : is_ok (set_interests Written "u1" ["  "; ""]
                       (mkWorld {["u1" := ["ai"]]} NoFile)).1 = false)
    by reflexivity.
  split; [exact H|].
  exact (set_interests_failure_is_clean Written "u1" ["  "; ""]
           (mkWorld {["u1" := ["ai"]]} NoFile) H).
Defined.

(** X6: normalising is idempotent: handing [set_interests] the list it has
    just stored (what [get_interests] shows) gives the same reply and the
    same state as handing it the original list. *)
Theorem set_interests_normal_form io id topics w :
  is_ok (set_interests io id topics w).1 = true ->
  clean (clean topics) = clean topics
  /\ set_interests io id (clean topics) w = set_interests io id topics w.
Proof.
  intros Hok. rewrite is_ok_set_interests in Hok.
  assert (E : clean (clean topics) = clean topics)
    by apply clean_fixed, clean_topics_ok.
  split; [exact E|].
  rewrite !set_interests_run.
  destruct topics as [|t l]; [discriminate|].
  destruct (clean (t :: l)) as [|c cl] eqn:Hc; [discriminate|].
  cbv beta iota. now rewrite E.
Qed.

Lemma set_interests_normal_form_witness :
  is_ok (set_interests Written "u1" [" AI "; ""; "Tech News"] (mkWorld ∅ NoFile)).1
  = true
  /\ clean (clean [" AI "; ""; "Tech News"]) = clean [" AI "; ""; "Tech News"]
  /\ set_interests Written "u1" (clean [" AI "; ""; "Tech News"]) (mkWorld ∅ NoFile)
     = set_interests Written "u1" [" AI "; ""; "Tech News"] (mkWorld ∅ NoFile).
Proof.
  assert (H : is_ok (set_interests Written "u1" [" AI "; ""; "Tech News"]
                       (mkWorld ∅ NoFile)).1 = true) by reflexivity.
  split; [exact H|].
  exact (set_interests_normal_form Written "u1" [" AI "; ""; "Tech News"]
           (mkWorld ∅ NoFile) H).
Defined.

(** X7: a failed write of the file is invisible to the caller: reply and
    in-memory map of [set_interests] are the same whether the file was
    written or not. *)
Theorem set_interests_ignores_write_failure io1 io2 id topics w :
  (set_interests io1 id topics w).1 = (set_interests io2 id topics w).1
  /\ USER_INTERESTS (set_interests io1 id topics w).2
     = USER_INTERESTS (set_interests io2 id topics w).2.
Proof.
  rewrite !set_interests_run. destruct topics as [|t l]; [now split|].
  destruct (clean (t :: l)); now split.
Qed.

(** X8: after a [set_interests] that succeeded and whose write went
    through, a restart finds exactly the map the process had in memory, for
    every identifier (entries that earlier reads created included). *)
Theorem restart_after_write id topics w :
  is_ok (set_interests Written id topics w).1 = true ->
  restart (set_interests Written id topics w).2
  = (set_interests Written id topics w).2.
Proof.
  rewrite set_interests_run. destruct topics as [|t l]; [discriminate|].
  destruct (clean (t :: l)); [discriminate | reflexivity].
Qed.

Lemma restart_after_write_witness :
  is_ok (set_interests Written "u1" ["AI"]
           (get_interests "u2" (mkWorld ∅ NoFile)).2).1 = true
  /\ restart (set_interests Written "u1" ["AI"]
                (get_interests "u2" (mkWorld ∅ NoFile)).2).2
     = (set_interests Written "u1" ["AI"]
          (get_interests "u2" (mkWorld ∅ NoFile)).2).2.
Proof.
  assert (H : is_ok (set_interests Written "u1" ["AI"]
                       (get_interests "u2" (mkWorld ∅ NoFile)).2).1 = true)
    by reflexivity.
  split; [exact H|].
  exact (restart_after_write "u1" ["AI"]
           (get_interests "u2" (mkWorld ∅ NoFile)).2 H).
Defined.

(** X9: only a [set_interests] that succeeds touches the file: after a
    reading tool, or after a [set_interests] that failed, the file is as it
    was, so a restart forgets the entries that reads alone created. *)
Theorem file_written_only_by_set c w :
  is_read c = true \/ is_ok (run c w).1 = false ->
  USER_INTERESTS_FILE (run c w).2 = USER_INTERESTS_FILE w
  /\ restart (run c w).2 = restart w.
Proof.
  intros H.
  assert (E : USER_INTERESTS_FILE (run c w).2 = USER_INTERESTS_FILE w).
  { destruct c as [id msg|io id topics|id|net id]; simpl in *.
    - rewrite hello_buzzbot_state. apply touched_file.
    - destruct H as [H|H]; [discriminate|].
      rewrite set_interests_run in *. destruct topics as [|t l]; [reflexivity|].
      destruct (clean (t :: l)); [reflexivity | discriminate].
    - rewrite get_interests_run. apply touched_file.
    - rewrite get_latest_news_run. apply touched_file. }
  split; [exact E|]. unfold restart. now rewrite E.
Qed.

Lemma file_written_only_by_set_witness :
  (is_read (CallGetInterests "u2") = true
   \/ is_ok (run (CallGetInterests "u2") (mkWorld ∅ (JsonFile ∅))).1 = false)
  /\ USER_INTERESTS_FILE (run (CallGetInterests "u2") (mkWorld ∅ (JsonFile ∅))).2
     = JsonFile ∅
  /\ restart (run (CallGetInterests "u2") (mkWorld ∅ (JsonFile ∅))).2
     = restart (mkWorld ∅ (JsonFile ∅)).
Proof.
  assert (H : is_read (CallGetInterests "u2") = true
              \/ is_ok (run (CallGetInterests "u2") (mkWorld ∅ (JsonFile ∅))).1 = false)
    by (left; reflexivity).
  split; [exact H|].
  exact (file_written_only_by_set (CallGetInterests "u2") (mkWorld ∅ (JsonFile ∅)) H).
Defined.

Lemma run_keeps_keys c w :
  dom (USER_INTERESTS w) ⊆ dom (USER_INTERESTS (run c w).2).
Proof.
  destruct (run_state c w) as [->|[[id ->]|(id & topics & f & ->)]].
  - reflexivity.
  - unfold touched. destruct id as [|a id]; [reflexivity|].
    destruct (USER_INTERESTS w !! String a id); [reflexivity|].
    simpl. rewrite dom_insert_L. set_solver.
  - simpl. rewrite dom_insert_L. set_solver.
Qed.

(** X10: there is no way to delete: whatever the session, every key of the
    map is still a key afterwards. *)
Theorem session_keeps_keys cs w :
  dom (USER_INTERESTS w) ⊆ dom (USER_INTERESTS (run_all cs w)).
Proof.
  revert w. induction cs as [|c cs IH]; intros w; simpl; [reflexivity|].
  etransitivity; [apply (run_keeps_keys c)|apply IH].
Qed.

Lemma run_keeps_nonempty k c w :
  interests_of (USER_INTERESTS w) k <> [] ->
  interests_of (USER_INTERESTS (run c w).2) k <> [].
Proof.
  intros Hne. destruct (is_set_for k c) eqn:Hk.
  - destruct c as [|io id topics| |]; try discriminate.
    apply bool_decide_eq_true in Hk. subst id. simpl.
    rewrite set_interests_run. destruct topics as [|t l]; [exact Hne|].
    destruct (clean (t :: l)) as [|a cl]; [exact Hne|].
    cbn [snd USER_INTERESTS]. unfold interests_of.
    rewrite lookup_insert_eq. discriminate.
  - now rewrite run_keeps_other_lists.
Qed.

(** X11: an identifier that has interests never loses them all: after any
    session the list read for it is still not empty. *)
Theorem session_keeps_nonempty k cs w :
  interests_of (USER_INTERESTS w) k <> [] ->
  interests_of (USER_INTERESTS (run_all cs w)) k <> [].
Proof.
  revert w. induction cs as [|c cs IH]; intros w Hne; simpl; [exact Hne|].
  apply IH. now apply run_keeps_nonempty.
Qed.

Lemma session_keeps_nonempty_witness :
  interests_of ({["u1" := ["ai"]]} : gmap string (list string)) "u1" <> []
  /\ interests_of
       (USER_INTERESTS
          (run_all [CallSetInterests Written "u1" [" "]; CallHello "u1" "bye";
                    CallSetInterests OpenFailed "u1" ["Sports"; ""]]
                   (mkWorld {["u1" := ["ai"]]} NoFile))) "u1" <> [].
Proof.
  assert (H : interests_of ({["u1" := ["ai"]]} : gmap string (list string)) "u1" <> [])
    by (vm_compute; discriminate).
  split; [exact H|].
  exact (session_keeps_nonempty "u1" _ (mkWorld {["u1" := ["ai"]]} NoFile) H).
Defined.

(** X12: for an identifier that is already a key of the map,
    [get_interests] and [get_latest_news] are pure reads: whatever the news
    service answers, map and file are left exactly as they were. *)
Theorem reads_of_known_id_change_nothing net id l w :
  USER_INTERESTS w !! id = Some l ->
  (get_interests id w).2 = w /\ (get_latest_news net id w).2 = w.
Proof.
  intros H. rewrite get_interests_run, get_latest_news_run. cbn [snd].
  split; now apply touched_known with l.
Qed.

Lemma reads_of_known_id_change_nothing_witness :
  USER_INTERESTS (mkWorld {["u1" := ["ai"]]} NoFile) !! "u1" = Some ["ai"]
  /\ (get_interests "u1" (mkWorld {["u1" := ["ai"]]} NoFile)).2
     = mkWorld {["u1" := ["ai"]]} NoFile
  /\ (get_latest_news (fun _ => Responded 200 None) "u1"
        (mkWorld {["u1" := ["ai"]]} NoFile)).2
     = mkWorld {["u1" := ["ai"]]} NoFile.
Proof.
  assert (H : USER_INTERESTS (mkWorld {["u1" := ["ai"]]} NoFile) !! "u1" = Some ["ai"])
    by reflexivity.
  split; [exact H|].
  exact (reads_of_known_id_change_nothing (fun _ => Responded 200 None) "u1" ["ai"]
           (mkWorld {["u1" := ["ai"]]} NoFile) H).
Defined.

(** X13: the invariant of the store holds along a whole session: if every
    stored topic is well formed at the start (as in a process started
    without a file), every stored topic is well formed at the end. *)
Theorem session_keeps_store_ok cs w :
  store_ok (USER_INTERESTS w) -> store_ok (USER_INTERESTS (run_all cs w)).
Proof.
  revert w. induction cs as [|c cs IH]; intros w Hok; simpl; [exact Hok|].
  apply IH. destruct (run_state c w) as [->|[[id ->]|(id & topics & f & ->)]].
  - exact Hok.
  - now apply touched_store_ok.
  - simpl. intros k l. destruct (decide (id = k)) as [<-|Hne].
    + rewrite lookup_insert_eq. intros [= <-]. apply clean_topics_ok.
    + rewrite lookup_insert_ne by assumption. apply Hok.
Qed.

Lemma session_keeps_store_ok_witness :
  store_ok (USER_INTERESTS (mkWorld (load_user_interests NoFile) NoFile))
  /\ store_ok
       (USER_INTERESTS
          (run_all [CallHello "u1" "hi"; CallSetInterests Written "u1" [" AI "; "ai"]]
                   (mkWorld (load_user_interests NoFile) NoFile))).
Proof.
  assert (H : store_ok (USER_INTERESTS (mkWorld (load_user_interests NoFile) NoFile))).
  { intros id l E. simpl in E. rewrite lookup_empty in E. discriminate. }
  split; [exact H|].
  exact (session_keeps_store_ok _ (mkWorld (load_user_interests NoFile) NoFile) H).
Defined.

(** ** The greeting *)

Section Greeting.
Import PyStr.

Lemma prefix_empty s : String.prefix "" s = true.
Proof. now destruct s. Qed.

Lemma prefix_of_empty n : n <> EmptyString -> String.prefix n "" = false.
Proof. destruct n; [congruence | reflexivity]. Qed.

Lemma contains_lstrip a n s :
  isspace a = false ->
  contains (String a n) (lstrip s) = contains (String a n) s.
Proof.
  intros Ha. induction s as [|c s IH]; [reflexivity|].
  cbn [lstrip]. destruct (isspace c) eqn:Hc; [|reflexivity].
  rewrite IH. cbn [contains String.prefix].
  destruct (ascii_dec a c) as [->|_]; [congruence | reflexivity].
Qed.

Lemma prefix_rstrip n s :
  n <> EmptyString ->
  (forall c, last n = Some c -> isspace c = false) ->
  String.prefix n (rstrip s) = String.prefix n s.
Proof.
  revert s. induction n as [|a n IH]; intros s Hne Hl; [congruence|].
  destruct s as [|c s]; [reflexivity|].
  cbn [rstrip]. destruct n as [|b n].
  - assert (Ha : isspace a = false) by now apply Hl.
    destruct (rstrip s) as [|b r]; [destruct (isspace c) eqn:Hc|];
      cbn [String.prefix]; destruct (ascii_dec a c) as [->|_];
      try reflexivity; try congruence; now rewrite !prefix_empty.
  - assert (IH' : String.prefix (String b n) (rstrip s) = String.prefix (String b n) s)
      by (apply IH; [discriminate | exact Hl]).
    destruct (rstrip s) as [|b' r]; [destruct (isspace c)|];
      cbn [String.prefix] in *; destruct (ascii_dec a c) as [->|_];
      try reflexivity; try (now rewrite <- IH').
    all: now destruct s.
Qed.

Lemma contains_rstrip n s :
  n <> EmptyString ->
  (forall c, last n = Some c -> isspace c = false) ->
  contains n (rstrip s) = contains n s.
Proof.
  intros Hne Hl. induction s as [|c s IH]; [reflexivity|].
  pose proof (prefix_rstrip n (String c s) Hne Hl) as Hp.
  cbn [contains]. rewrite <- IH, <- Hp. cbn [rstrip].
  destruct (rstrip s) as [|b r]; [destruct (isspace c)|]; cbn [contains];
    rewrite ?prefix_of_empty by assumption;
    now rewrite ?orb_false_r.
Qed.

(** Trimming cannot hide or reveal a word that has no white space at its
    ends. *)
Lemma contains_strip a n s :
  isspace a = false ->
  (forall c, last (String a n) = Some c -> isspace c = false) ->
  contains (String a n) (strip s) = contains (String a n) s.
Proof.
  intros Ha Hl. unfold strip.
  rewrite contains_rstrip by (assumption || discriminate).
  now apply contains_lstrip.
Qed.

Lemma greets_decided msg :
  contains "hello" (strip (lower msg)) || contains "hi" (strip (lower msg)) = true
  <-> greets msg.
Proof.
  assert (E1 : contains "hello" (strip (lower msg)) = contains "hello" (lower msg)).
  { apply contains_strip; [reflexivity|]. simpl. now intros c [= <-]. }
  assert (E2 : contains "hi" (strip (lower msg)) = contains "hi" (lower msg)).
  { apply contains_strip; [reflexivity|]. simpl. now intros c [= <-]. }
  rewrite E1, E2. unfold greets, occurs_ignoring_case.
  rewrite orb_true_iff, !contains_spec. reflexivity.
Qed.

Lemma hello_buzzbot_reply id msg w :
  id <> EmptyString ->
  (hello_buzzbot id msg w).1
  = Ok (if contains "hello" (strip (lower msg)) || contains "hi" (strip (lower msg))
        then if nonempty (interests_of (USER_INTERESTS w) id)
             then HelloReady id (interests_of (USER_INTERESTS w) id)
             else HelloNeedInterests id
        else HelloHelp id (interests_of (USER_INTERESTS w) id)).
Proof.
  intros Hid. unfold hello_buzzbot, try_except, mbind, M_bind, mret, M_ret.
  rewrite user_interests_pair. destruct id; [congruence|]. cbn [truthy].
  destruct (_ || _); [destruct (nonempty _)|]; reflexivity.
Qed.

End Greeting.

(** X14: for a non-empty identifier [hello_buzzbot] never fails.  A message
    in which [hello] or [hi] occurs anywhere, in any mix of cases, is answered
    with the offer of news when the identifier has interests and with the
    request for interests when it has none; every other message is answered
    with the general help, which carries the interests read. *)
Theorem hello_buzzbot_answers id msg w :
  id <> EmptyString ->
  (greets msg ->
   (hello_buzzbot id msg w).1
   = Ok (if nonempty (interests_of (USER_INTERESTS w) id)
         then HelloReady id (interests_of (USER_INTERESTS w) id)
         else HelloNeedInterests id))
  /\ (~ greets msg ->
      (hello_buzzbot id msg w).1
      = Ok (HelloHelp id (interests_of (USER_INTERESTS w) id))).
Proof.
  intros Hid. rewrite hello_buzzbot_reply by assumption.
  split; intros Hg.
  - apply greets_decided in Hg. now rewrite Hg.
  - destruct (_ || _) eqn:E; [|reflexivity].
    apply greets_decided in E. contradiction.
Qed.

Lemma hello_buzzbot_answers_witness :
  "u1" <> EmptyString
  /\ (greets "  Oh, THIS again  "
      /\ (hello_buzzbot "u1" "  Oh, THIS again  "
            (mkWorld {["u1" := ["ai"]]} NoFile)).1
         = Ok (HelloReady "u1" ["ai"]))
  /\ (~ greets "good morning"
      /\ (hello_buzzbot "u1" "good morning" (mkWorld {["u1" := ["ai"]]} NoFile)).1
         = Ok (HelloHelp "u1" ["ai"])).
Proof.
  assert (H : "u1" <> EmptyString) by discriminate.
  assert (G1 : greets "  Oh, THIS again  ")
    by (apply greets_decided; reflexivity).
  assert (G2 : ~ greets "good morning")
    by (intros G; apply greets_decided in G; discriminate).
  split; [exact H|]. split.
  - split; [exact G1|].
    exact (proj1 (hello_buzzbot_answers "u1" "  Oh, THIS again  "
                    (mkWorld {["u1" := ["ai"]]} NoFile) H) G1).
  - split; [exact G2|].
    exact (proj2 (hello_buzzbot_answers "u1" "good morning"
                    (mkWorld {["u1" := ["ai"]]} NoFile) H) G2).
Defined.

(** ** Further properties of the relevance score *)

Section Score.
Import PyStr.

Lemma count_matches_app content l1 l2 :
  count_matches content (l1 ++ l2)
  = (count_matches content l1 + count_matches content l2)%nat.
Proof.
  induction l1 as [|t l IH]; [reflexivity|].
  change ((t :: l) ++ l2) with (t :: (l ++ l2)).
  rewrite !count_matches_cons, IH. lia.
Qed.

Lemma count_matches_perm content l l' :
  Permutation l l' -> count_matches content l = count_matches content l'.
Proof.
  induction 1 as [|t l l' _ IH|a b l|l1 l2 l3 _ IH1 _ IH2];
    rewrite ?count_matches_cons; try lia; reflexivity.
Qed.

Lemma count_matches_lower_topics content l :
  count_matches content (map lower l) = count_matches content l.
Proof.
  induction l as [|t l IH]; [reflexivity|].
  cbn [map]. now rewrite !count_matches_cons, lower_idem, IH.
Qed.

(** The score depends on the topic list only through [count_matches]. *)
Lemma calculate_relevance_shape article :
  (exists content, forall topics,
      calculate_relevance article topics = Ok (count_matches content topics))
  \/ (exists e, forall topics, calculate_relevance article topics = Raise e).
Proof.
  unfold calculate_relevance.
  destruct (py_get article "title" (JStr "")) as [v1|e]; [|right; now exists e].
  cbn [mbind result_bind].
  destruct (py_lower v1) as [t|e]; [|right; now exists e].
  cbn [mbind result_bind].
  destruct (py_get article "description" (JStr "")) as [v2|e]; [|right; now exists e].
  cbn [mbind result_bind].
  destruct (py_lower v2) as [d|e]; [|right; now exists e].
  left. now exists (t +:+ " " +:+ d).
Qed.

End Score.

(** X15: the score does not depend on the order of the topics: for every
    article, two topic lists that are permutations of each other give the
    same result. *)
Theorem relevance_ignores_topic_order article topics topics' :
  Permutation topics topics' ->
  calculate_relevance article topics = calculate_relevance article topics'.
Proof.
  intros Hp. destruct (calculate_relevance_shape article) as [[c H]|[e H]];
    rewrite !H; [|reflexivity].
  f_equal. now apply count_matches_perm.
Qed.

Lemma relevance_ignores_topic_order_witness :
  Permutation ["ai"; "sports"; "robotics"] ["robotics"; "ai"; "sports"]
  /\ calculate_relevance (article_of "AI in Robotics" "") ["ai"; "sports"; "robotics"]
     = calculate_relevance (article_of "AI in Robotics" "") ["robotics"; "ai"; "sports"].
Proof.
  assert (H : Permutation ["ai"; "sports"; "robotics"] ["robotics"; "ai"; "sports"]).
  { apply Permutation_sym. apply (Permutation_cons_app ["ai"; "sports"] []).
    reflexivity. }
  split; [exact H|].
  exact (relevance_ignores_topic_order (article_of "AI in Robotics" "") _ _ H).
Defined.

(** X16: the score is additive over the topic list: the score for two lists
    put together is the sum of the two scores.  A topic that is in the list
    twice therefore counts twice. *)
Theorem relevance_additive article topics1 topics2 n1 n2 :
  calculate_relevance article topics1 = Ok n1 ->
  calculate_relevance article topics2 = Ok n2 ->
  calculate_relevance article (topics1 ++ topics2) = Ok (n1 + n2)%nat.
Proof.
  destruct (calculate_relevance_shape article) as [[c H]|[e H]];
    rewrite !H; [|discriminate].
  intros [= <-] [= <-]. now rewrite count_matches_app.
Qed.

Lemma relevance_additive_witness :
  calculate_relevance (article_of "AI news" "") ["ai"] = Ok 1%nat
  /\ calculate_relevance (article_of "AI news" "") ["ai"; "sports"] = Ok 1%nat
  /\ calculate_relevance (article_of "AI news" "") (["ai"] ++ ["ai"; "sports"])
     = Ok (1 + 1)%nat.
Proof.
  assert (H1 : calculate_relevance (article_of "AI news" "") ["ai"] = Ok 1%nat)
    by reflexivity.
  assert (H2 : calculate_relevance (article_of "AI news" "") ["ai"; "sports"] = Ok 1%nat)
    by reflexivity.
  split; [exact H1|]. split; [exact H2|].
  exact (relevance_additive (article_of "AI news" "") _ _ _ _ H1 H2).
Defined.

(** X17: the score ignores case on both sides: lowercasing the topics, or
    the title and the description of the article, does not change it. *)
Theorem relevance_ignores_case a_title a_description topics :
  calculate_relevance (article_of a_title a_description) (map PyStr.lower topics)
  = calculate_relevance (article_of a_title a_description) topics
  /\ calculate_relevance
       (article_of (PyStr.lower a_title) (PyStr.lower a_description)) topics
     = calculate_relevance (article_of a_title a_description) topics.
Proof.
  rewrite !(calculate_relevance_strings _ a_title a_description) by reflexivity.
  rewrite (calculate_relevance_strings _ (PyStr.lower a_title)
             (PyStr.lower a_description)) by reflexivity.
  now rewrite count_matches_lower_topics, !lower_idem.
Qed.

(** ** Further properties of ranking *)

Section RankMore.

Lemma sort_by_score_fixed l :
  StronglySorted score_ge l -> sort_by_score l = l.
Proof.
  induction 1 as [|x l _ IH Hall]; [reflexivity|].
  cbn [sort_by_score]. rewrite IH.
  destruct l as [|y l]; [reflexivity|].
  cbn [insert_by_score]. inversion Hall as [|? ? Hy _]; subst.
  unfold score_ge in Hy. apply Nat.leb_le in Hy. now rewrite Hy.
Qed.

Lemma firstn_short {A} (l : list A) n : (length l <= n)%nat -> firstn n l = l.
Proof. apply firstn_all2. Qed.

End RankMore.

(** X18: ranking drops only the worst: the kept entries together with the
    dropped ones are a permutation of the input, and every kept entry scores
    at least as high as every dropped one. *)
Theorem rank_keeps_best (l : list formatted_article) :
  Permutation (rank l ++ skipn 5 (sort_by_score l)) l
  /\ Forall (fun kept =>
               Forall (fun dropped => score_ge kept dropped)
                      (skipn 5 (sort_by_score l)))
            (rank l).
Proof.
  unfold rank. split.
  - rewrite firstn_skipn. apply sort_by_score_perm.
  - pose proof (sort_by_score_sorted l) as H.
    rewrite <- (firstn_skipn 5 (sort_by_score l)) in H.
    apply Forall_forall. intros a Ha. apply Forall_forall. intros b Hb.
    eapply StronglySorted_app_1_elem_of; eauto.
Qed.

(** X19: a list that is already in descending order of score is left
    exactly as it is by the sort, so ranking it only cuts it to five. *)
Theorem sorted_input_unchanged (l : list formatted_article) :
  StronglySorted score_ge l ->
  sort_by_score l = l /\ rank l = firstn 5 l.
Proof.
  intros H. unfold rank. rewrite sort_by_score_fixed by assumption. now split.
Qed.

Lemma sorted_input_unchanged_witness :
  StronglySorted score_ge
    [mkFormatted (JStr "A") JNull JNull JNull JNull 3;
     mkFormatted (JStr "B") JNull JNull JNull JNull 3;
     mkFormatted (JStr "C") JNull JNull JNull JNull 0]
  /\ sort_by_score
       [mkFormatted (JStr "A") JNull JNull JNull JNull 3;
        mkFormatted (JStr "B") JNull JNull JNull JNull 3;
        mkFormatted (JStr "C") JNull JNull JNull JNull 0]
     = [mkFormatted (JStr "A") JNull JNull JNull JNull 3;
        mkFormatted (JStr "B") JNull JNull JNull JNull 3;
        mkFormatted (JStr "C") JNull JNull JNull JNull 0]
  /\ rank
       [mkFormatted (JStr "A") JNull JNull JNull JNull 3;
        mkFormatted (JStr "B") JNull JNull JNull JNull 3;
        mkFormatted (JStr "C") JNull JNull JNull JNull 0]
     = firstn 5
         [mkFormatted (JStr "A") JNull JNull JNull JNull 3;
          mkFormatted (JStr "B") JNull JNull JNull JNull 3;
          mkFormatted (JStr "C") JNull JNull JNull JNull 0].
Proof.
  assert (H : StronglySorted score_ge
    [mkFormatted (JStr "A") JNull JNull JNull JNull 3;
     mkFormatted (JStr "B") JNull JNull JNull JNull 3;
     mkFormatted (JStr "C") JNull JNull JNull JNull 0]).
  { repeat constructor; unfold score_ge; simpl; lia. }
  split; [exact H|].
  exact (sorted_input_unchanged _ H).
Defined.

(** X20: ranking twice is ranking once. *)
Theorem rank_idempotent (l : list formatted_article) : rank (rank l) = rank l.
Proof.
  unfold rank at 1. rewrite sort_by_score_fixed by apply rank_sorted.
  apply firstn_short. rewrite rank_length. lia.
Qed.

(** ** Further properties of the fetch *)

Section Fetch.
Import PyStr.
Local Arguments String.append !s1 s2 : simpl nomatch.

Lemma str_app_nil_r s : s +:+ "" = s.
Proof. induction s as [|c s IH]; simpl; [reflexivity | now rewrite IH]. Qed.

Lemma str_app_assoc a b c : (a +:+ b) +:+ c = a +:+ (b +:+ c).
Proof. induction a as [|x a IH]; simpl; [reflexivity | now rewrite IH]. Qed.

Lemma join_cons2 sep s s2 l :
  join sep (s :: s2 :: l) = s +:+ sep +:+ join sep (s2 :: l).
Proof. reflexivity. Qed.

Lemma join_contains sep t l : t ∈ l -> substring_of t (join sep l).
Proof.
  induction l as [|s l IH]; [now intros ?%elem_of_nil|].
  intros [->|Hin]%elem_of_cons; destruct l as [|s2 l].
  - exists EmptyString, EmptyString. simpl. now rewrite str_app_nil_r.
  - rewrite join_cons2. now exists EmptyString, (sep +:+ join sep (s2 :: l)).
  - now apply elem_of_nil in Hin.
  - rewrite join_cons2. destruct (IH Hin) as (pre & post & ->).
    exists (s +:+ sep +:+ pre), post. now rewrite !str_app_assoc.
Qed.

Lemma fetch_body_answered net interests body :
  interests <> [] ->
  answered net interests body ->
  fetch_body net interests
  = (data ← response_json body;
     articles ← py_get data "articles" (JArr []);
     first5 ← py_slice5 articles;
     formatted_articles ← format_articles first5 interests;
     mret (rank formatted_articles)).
Proof.
  intros Hne (st & Hn & Hs). destruct interests as [|t l]; [congruence|].
  unfold fetch_body, requests_get, raise_for_status.
  cbn [first_item mbind result_bind]. rewrite Hn.
  cbn [mbind result_bind fst snd]. now rewrite Hs.
Qed.

Lemma format_article_sound interests a f :
  format_article a interests = Ok f -> formats_as interests a f.
Proof.
  unfold format_article, formats_as.
  destruct (py_get a "title" _) as [v1|]; [|discriminate]. cbn [mbind result_bind].
  destruct (py_get a "description" _) as [v2|]; [|discriminate]. cbn [mbind result_bind].
  destruct (py_get a "url" _) as [v3|]; [|discriminate]. cbn [mbind result_bind].
  destruct (py_get a "publishedAt" _) as [v4|]; [|discriminate]. cbn [mbind result_bind].
  destruct (py_get a "source" _) as [v5|]; [|discriminate]. cbn [mbind result_bind].
  destruct (py_get v5 "name" _) as [v6|] eqn:E6; [|discriminate]. cbn [mbind result_bind].
  destruct (calculate_relevance a interests) as [n|]; [|discriminate].
  cbn [mbind result_bind]. unfold mret, result_ret. intros [= <-]. simpl.
  repeat split; try reflexivity. now exists v5.
Qed.

Lemma format_articles_sound interests l fs :
  format_articles l interests = Ok fs -> Forall2 (formats_as interests) l fs.
Proof.
  revert fs. induction l as [|a l IH]; intros fs; cbn [format_articles].
  - unfold mret, result_ret. intros [= <-]. constructor.
  - destruct (format_article a interests) as [f|] eqn:Ef; [|discriminate].
    cbn [mbind result_bind].
    destruct (format_articles l interests) as [fs'|]; [|discriminate].
    cbn [mbind result_bind]. unfold mret, result_ret. intros [= <-].
    constructor; [now apply format_article_sound | now apply IH].
Qed.

Lemma format_article_ok interests a :
  well_formed_article a -> is_ok (format_article a interests) = true.
Proof.
  intros ((t & Ht) & (d & Hd) & (src & Hs)).
  unfold format_article.
  rewrite (calculate_relevance_strings a t d) by assumption.
  destruct a; try discriminate.
  rewrite Ht, Hd, Hs. reflexivity.
Qed.

Lemma format_articles_ok interests l :
  Forall well_formed_article l -> is_ok (format_articles l interests) = true.
Proof.
  induction 1 as [|a l Ha _ IH]; [reflexivity|]. cbn [format_articles].
  apply (format_article_ok interests) in Ha.
  destruct (format_article a interests); [|discriminate].
  cbn [mbind result_bind].
  now destruct (format_articles l interests).
Qed.

Lemma format_article_bad interests a :
  bad_text_article a -> is_ok (format_article a interests) = false.
Proof.
  intros (v & Hv & Hns). unfold format_article, calculate_relevance.
  destruct a; try (destruct Hv; discriminate).
  cbn [py_get mbind result_bind] in *.
  destruct (py_get (default (JObj []) (dict_lookup "source" fields)) "name" (JStr ""));
    [|reflexivity].
  cbn [mbind result_bind].
  destruct Hv as [[= Hv]|[= Hv]].
  - rewrite Hv. destruct v; try reflexivity. now destruct (Hns s).
  - destruct (py_lower (default (JStr "") (dict_lookup "title" fields)));
      [|reflexivity].
    cbn [mbind result_bind]. rewrite Hv.
    destruct v; try reflexivity. now destruct (Hns s).
Qed.

Lemma format_articles_bad interests l :
  Exists bad_text_article l -> is_ok (format_articles l interests) = false.
Proof.
  induction 1 as [a l Ha|a l _ IH]; cbn [format_articles].
  - apply (format_article_bad interests) in Ha.
    now destruct (format_article a interests).
  - destruct (format_article a interests); [|reflexivity].
    cbn [mbind result_bind].
    now destruct (format_articles l interests).
Qed.

End Fetch.

(** X21: when the service answers with a list of articles of which the
    first five are well formed, the fetch returns exactly those (at most
    five) articles: each entry is one raw article with its fields copied and
    its relevance score, the entries are reordered only, and articles after
    the fifth play no part. *)
Theorem fetch_returns_first_five net interests data arts w :
  interests <> [] ->
  answered net interests (Some data) ->
  py_get data "articles" (JArr []) = Ok (JArr arts) ->
  Forall well_formed_article (firstn 5 arts) ->
  exists fs,
    Forall2 (formats_as interests) (firstn 5 arts) fs
    /\ fetch_news_by_interests net interests w = (Ok (rank fs), w)
    /\ Permutation (rank fs) fs
    /\ length (rank fs) = Nat.min 5 (length arts).
Proof.
  intros Hne Hans Harts Hwf.
  apply (format_articles_ok interests) in Hwf.
  destruct (format_articles (firstn 5 arts) interests) as [fs|] eqn:Ef;
    [|discriminate].
  exists fs. pose proof (format_articles_sound _ _ _ Ef) as Hs.
  assert (Hlen : length fs = Nat.min 5 (length arts)).
  { rewrite <- (Forall2_length _ _ _ Hs). apply length_firstn. }
  split; [exact Hs|]. split; [|split].
  - rewrite fetch_run, (fetch_body_answered _ _ _ Hne Hans).
    cbn [response_json mbind result_bind]. rewrite Harts.
    cbn [mbind result_bind py_slice5]. now rewrite Ef.
  - unfold rank. rewrite firstn_short.
    + apply sort_by_score_perm.
    + rewrite (Permutation_length (sort_by_score_perm fs)). lia.
  - rewrite rank_length. lia.
Qed.

Lemma fetch_returns_first_five_witness :
  ["ai"] <> []
  /\ answered
       (fun _ => Responded 200
          (Some (JObj [("status", JStr "ok");
                       ("articles", JArr [article_of "Sports" "";
                                          article_of "AI" "ai again"])])))
       ["ai"]
       (Some (JObj [("status", JStr "ok");
                    ("articles", JArr [article_of "Sports" "";
                                       article_of "AI" "ai again"])]))
  /\ exists fs,
      Forall2 (formats_as ["ai"])
        (firstn 5 [article_of "Sports" ""; article_of "AI" "ai again"]) fs
      /\ fetch_news_by_interests
           (fun _ => Responded 200
              (Some (JObj [("status", JStr "ok");
                           ("articles", JArr [article_of "Sports" "";
                                              article_of "AI" "ai again"])])))
           ["ai"] (mkWorld ∅ NoFile)
         = (Ok (rank fs), mkWorld ∅ NoFile)
      /\ Permutation (rank fs) fs
      /\ length (rank fs)
         = Nat.min 5 (length [article_of "Sports" ""; article_of "AI" "ai again"]).
Proof.
  assert (H1 : ["ai"] <> []) by discriminate.
  assert (H2 : answered
       (fun _ => Responded 200
          (Some (JObj [("status", JStr "ok");
                       ("articles", JArr [article_of "Sports" "";
                                          article_of "AI" "ai again"])])))
       ["ai"]
       (Some (JObj [("status", JStr "ok");
                    ("articles", JArr [article_of "Sports" "";
                                       article_of "AI" "ai again"])])))
    by (exists 200; split; reflexivity).
  assert (H4 : Forall well_formed_article
                 (firstn 5 [article_of "Sports" ""; article_of "AI" "ai again"])).
  { repeat constructor; simpl; eexists; reflexivity. }
  split; [exact H1|]. split; [exact H2|].
  exact (fetch_returns_first_five _ ["ai"] _
           [article_of "Sports" ""; article_of "AI" "ai again"]
           (mkWorld ∅ NoFile) H1 H2 eq_refl H4).
Defined.

(** X22: one unreadable article spoils the whole answer: when one of the
    first five articles has a title or a description that is present but is
    not a string (a JSON [null], say), the fetch returns the empty list, the
    readable articles included. *)
Theorem fetch_all_or_nothing net interests data arts w :
  interests <> [] ->
  answered net interests (Some data) ->
  py_get data "articles" (JArr []) = Ok (JArr arts) ->
  Exists bad_text_article (firstn 5 arts) ->
  fetch_news_by_interests net interests w = (Ok [], w).
Proof.
  intros Hne Hans Harts Hbad.
  apply (format_articles_bad interests) in Hbad.
  rewrite fetch_run, (fetch_body_answered _ _ _ Hne Hans).
  cbn [response_json mbind result_bind]. rewrite Harts.
  cbn [mbind result_bind py_slice5].
  now destruct (format_articles (firstn 5 arts) interests).
Qed.

Lemma fetch_all_or_nothing_witness :
  ["ai"] <> []
  /\ answered
       (fun _ => Responded 200
          (Some (JObj [("articles",
                        JArr [article_of "AI today" "all about ai";
                              JObj [("title", JStr "AI"); ("description", JNull)]])])))
       ["ai"]
       (Some (JObj [("articles",
                     JArr [article_of "AI today" "all about ai";
                           JObj [("title", JStr "AI"); ("description", JNull)]])]))
  /\ Exists bad_text_article
       (firstn 5 [article_of "AI today" "all about ai";
                  JObj [("title", JStr "AI"); ("description", JNull)]])
  /\ fetch_news_by_interests
       (fun _ => Responded 200
          (Some (JObj [("articles",
                        JArr [article_of "AI today" "all about ai";
                              JObj [("title", JStr "AI"); ("description", JNull)]])])))
       ["ai"] (mkWorld ∅ NoFile)
     = (Ok [], mkWorld ∅ NoFile).
Proof.
  assert (H1 : ["ai"] <> []) by discriminate.
  assert (H2 : answered
       (fun _ => Responded 200
          (Some (JObj [("articles",
                        JArr [article_of "AI today" "all about ai";
                              JObj [("title", JStr "AI"); ("description", JNull)]])])))
       ["ai"]
       (Some (JObj [("articles",
                     JArr [article_of "AI today" "all about ai";
                           JObj [("title", JStr "AI"); ("description", JNull)]])])))
    by (exists 200; split; reflexivity).
  assert (H4 : Exists bad_text_article
       (firstn 5 [article_of "AI today" "all about ai";
                  JObj [("title", JStr "AI"); ("description", JNull)]])).
  { apply Exists_cons_tl, Exists_cons_hd. exists JNull.
    split; [right; reflexivity | discriminate]. }
  split; [exact H1|]. split; [exact H2|]. split; [exact H4|].
  exact (fetch_all_or_nothing _ ["ai"] _ _ (mkWorld ∅ NoFile) H1 H2 eq_refl H4).
Defined.

(** X23: an answer with a good status but without usable articles gives the
    empty list: a body that is not JSON, JSON that is not an object, an
    object without an [articles] entry, or an [articles] entry that is
    neither a list nor a string. *)
Theorem fetch_unusable_answer net interests body w :
  interests <> [] ->
  answered net interests body ->
  body = None
  \/ (exists data, body = Some data /\ forall d, data <> JObj d)
  \/ (exists d, body = Some (JObj d) /\ dict_lookup "articles" d = None)
  \/ (exists data v,
         body = Some data /\ py_get data "articles" (JArr []) = Ok v
         /\ (forall l, v <> JArr l) /\ (forall s, v <> JStr s)) ->
  fetch_news_by_interests net interests w = (Ok [], w).
Proof.
  intros Hne Hans Hbody.
  rewrite fetch_run, (fetch_body_answered _ _ _ Hne Hans).
  destruct Hbody as [->|[(data & -> & Hd)|[(d & -> & Hd)|(data & v & -> & Hv & Hl & Hs)]]].
  - reflexivity.
  - cbn [response_json mbind result_bind].
    destruct data; try reflexivity. now destruct (Hd fields).
  - cbn [response_json mbind result_bind py_get]. now rewrite Hd.
  - cbn [response_json mbind result_bind]. rewrite Hv.
    cbn [mbind result_bind].
    destruct v; try reflexivity; [now destruct (Hs s) | now destruct (Hl items)].
Qed.

Lemma fetch_unusable_answer_witness :
  ["ai"] <> []
  /\ answered (fun _ => Responded 200 (Some (JObj [("articles", JNull)]))) ["ai"]
       (Some (JObj [("articles", JNull)]))
  /\ fetch_news_by_interests
       (fun _ => Responded 200 (Some (JObj [("articles", JNull)]))) ["ai"]
       (mkWorld ∅ NoFile)
     = (Ok [], mkWorld ∅ NoFile).
Proof.
  assert (H1 : ["ai"] <> []) by discriminate.
  assert (H2 : answered (fun _ => Responded 200 (Some (JObj [("articles", JNull)])))
                 ["ai"] (Some (JObj [("articles", JNull)])))
    by (exists 200; split; reflexivity).
  split; [exact H1|]. split; [exact H2|].
  apply (fetch_unusable_answer _ ["ai"] _ (mkWorld ∅ NoFile) H1 H2).
  right. right. right. exists (JObj [("articles", JNull)]), JNull.
  repeat split; discriminate.
Defined.

Lemma get_latest_news_known net id w l :
  id <> EmptyString ->
  USER_INTERESTS w !! id = Some l ->
  l <> [] ->
  exists articles,
    ((get_latest_news net id w).1, (get_latest_news net id w).2)
    = (Ok (if nonempty articles
           then NewsDisplayed id l (length articles) articles
           else NoNewsFound id l), w)
    /\ (length articles <= 5)%nat.
Proof.
  intros Hid Hl Hne. rewrite get_latest_news_run. cbn [fst snd].
  assert (Hio : interests_of (USER_INTERESTS w) id = l)
    by (unfold interests_of; now rewrite Hl).
  rewrite (touched_known _ _ _ Hl), Hio.
  destruct id as [|c id]; [congruence|]. cbn [PyStr.truthy].
  destruct l as [|t l]; [congruence|].
  rewrite fetch_run. cbn [fst].
  destruct (fetch_body net (t :: l)) as [arts|e] eqn:Hf.
  - exists arts. destruct (fetch_body_ranked _ _ _ Hf) as [f ->].
    split; [now destruct (rank f)|]. rewrite rank_length. lia.
  - exists []. split; [reflexivity | simpl; lia].
Qed.

(** X24: after a [set_interests] that succeeded for a non-empty identifier,
    [get_latest_news] never fails, whatever the service does: it answers
    with the no-news notice or with at most five articles and their count,
    names the normalised list as the interests, and changes nothing. *)
Theorem news_after_set_interests net io id topics w :
  id <> EmptyString ->
  normalize topics <> [] ->
  exists articles,
    get_latest_news net id (set_interests io id topics w).2
    = (Ok (if nonempty articles
           then NewsDisplayed id (normalize topics) (length articles) articles
           else NoNewsFound id (normalize topics)),
       (set_interests io id topics w).2)
    /\ (length articles <= 5)%nat.
Proof.
  intros Hid Hn.
  assert (Hok : is_ok (set_interests io id topics w).1 = true).
  { rewrite is_ok_set_interests, <- clean_normalize in *.
    now apply nonempty_true. }
  pose proof (set_interests_ok_state _ _ _ _ Hok) as Hst.
  rewrite clean_normalize in Hst.
  assert (Hl : USER_INTERESTS (set_interests io id topics w).2 !! id
               = Some (normalize topics))
    by (rewrite Hst; apply lookup_insert_eq).
  destruct (get_latest_news_known net id (set_interests io id topics w).2 (normalize topics)
              Hid Hl Hn) as (arts & E & Hlen).
  exists arts. split; [|exact Hlen].
  rewrite <- E. apply surjective_pairing.
Qed.

Lemma news_after_set_interests_witness :
  "u1" <> EmptyString
  /\ normalize [" AI "; "Sports"] <> []
  /\ exists articles,
      get_latest_news (fun _ => Responded 200 None) "u1"
        (set_interests OpenFailed "u1" [" AI "; "Sports"] (mkWorld ∅ NoFile)).2
      = (Ok (if nonempty articles
             then NewsDisplayed "u1" (normalize [" AI "; "Sports"])
                                (length articles) articles
             else NoNewsFound "u1" (normalize [" AI "; "Sports"])),
         (set_interests OpenFailed "u1" [" AI "; "Sports"] (mkWorld ∅ NoFile)).2)
      /\ (length articles <= 5)%nat.
Proof.
  assert (H1 : "u1" <> EmptyString) by discriminate.
  assert (H2 : normalize [" AI "; "Sports"] <> []) by (vm_compute; discriminate).
  split; [exact H1|]. split; [exact H2|].
  exact (news_after_set_interests (fun _ => Responded 200 None) OpenFailed "u1"
           [" AI "; "Sports"] (mkWorld ∅ NoFile) H1 H2).
Defined.

(** X25: a failure of the news service is not an error of the tool: for a
    non-empty identifier with interests, when the request times out, fails
    in transport or is answered with a 4xx or 5xx status, [get_latest_news]
    answers with the no-news notice and changes nothing. *)
Theorem service_failure_is_no_news net id l w :
  id <> EmptyString ->
  USER_INTERESTS w !! id = Some l ->
  l <> [] ->
  net (build_request l) = TimedOut
  \/ net (build_request l) = TransportFailed
  \/ (exists status_code body,
         net (build_request l) = Responded status_code body
         /\ is_http_error status_code = true) ->
  get_latest_news net id w = (Ok (NoNewsFound id l), w).
Proof.
  intros Hid Hl Hne Hnet. rewrite get_latest_news_run.
  assert (Hio : interests_of (USER_INTERESTS w) id = l)
    by (unfold interests_of; now rewrite Hl).
  rewrite (touched_known _ _ _ Hl), Hio.
  destruct id as [|c id]; [congruence|]. cbn [PyStr.truthy].
  destruct l as [|t l]; [congruence|].
  rewrite fetch_run. cbn [fst].
  assert (Hf : is_ok (fetch_body net (t :: l)) = false).
  { unfold fetch_body, requests_get, raise_for_status.
    cbn [first_item mbind result_bind].
    destruct Hnet as [->|[->|(st & body & -> & Hst)]]; try reflexivity.
    cbn [mbind result_bind fst snd]. now rewrite Hst. }
  now destruct (fetch_body net (t :: l)).
Qed.

Lemma service_failure_is_no_news_witness :
  "u1" <> EmptyString
  /\ USER_INTERESTS (mkWorld {["u1" := ["ai"]]} NoFile) !! "u1" = Some ["ai"]
  /\ ["ai"] <> []
  /\ get_latest_news (fun _ => Responded 429 (Some (JObj []))) "u1"
       (mkWorld {["u1" := ["ai"]]} NoFile)
     = (Ok (NoNewsFound "u1" ["ai"]), mkWorld {["u1" := ["ai"]]} NoFile).
Proof.
  assert (H1 : "u1" <> EmptyString) by discriminate.
  assert (H2 : USER_INTERESTS (mkWorld {["u1" := ["ai"]]} NoFile) !! "u1" = Some ["ai"])
    by reflexivity.
  assert (H3 : ["ai"] <> []) by discriminate.
  split; [exact H1|]. split; [exact H2|]. split; [exact H3|].
  apply (service_failure_is_no_news _ "u1" ["ai"] _ H1 H2 H3).
  right. right. exists 429, (Some (JObj [])). split; reflexivity.
Defined.

(** X26: the query sent to the service names each of the first three
    interests, verbatim. *)
Theorem query_names_first_three interests t :
  t ∈ firstn 3 interests ->
  PyStr.substring_of t (q (build_request interests)).
Proof. intros H. unfold build_request. cbn [q]. now apply join_contains. Qed.

Lemma query_names_first_three_witness :
  "sports" ∈ firstn 3 ["ai"; "sports"; "politics"; "chess"]
  /\ PyStr.substring_of "sports"
       (q (build_request ["ai"; "sports"; "politics"; "chess"])).
Proof.
  assert (H : "sports" ∈ firstn 3 ["ai"; "sports"; "politics"; "chess"])
    by (simpl; set_solver).
  split; [exact H|].
  exact (query_names_first_three ["ai"; "sports"; "politics"; "chess"] "sports" H).
Defined.
